(** * WS2812b-Clock: the digit-rendering engine of [ClockDriver.ino]

    A shallow embedding of the sketch's rendering path
    ([setClockTime], [setClockSegment], [controlPixel], [colorFill],
    [pixelTest]) and of the MQTT [callback], followed by the properties
    the specification states about them.  The embedded sketch is the NTP
    driver with the "old time" trackers; of the earlier RTC draft only
    [setClockTime] is embedded (module [Draft]).

    The sketch is sequential code over global variables and the FastLED
    driver.  It is embedded in a small monad [M] that threads the global
    variables, collects the hardware-visible events of a computation in
    program order, and stops with [Undefined] where the C++ code would
    index an array outside its bounds. *)

From Stdlib Require Import ZArith Lia List.
From stdpp Require Import base list sorting strings.

Local Open Scope Z_scope.

(** ** Colours *)

(** FastLED's [CRGB]: three 8-bit channels. *)
Record CRGB := mkCRGB { rgb_r : Z; rgb_g : Z; rgb_b : Z }.

(** [CRGBW] of [FastLED_RGBW.h]: the three channels and a white channel. *)
Record CRGBW := mkCRGBW { r : Z; g : Z; b : Z; w : Z }.

(** [CRGB::White] is [0xFFFFFF], [CRGB::Black] is [0x000000]. *)
Definition White : CRGB := mkCRGB 255 255 255.
Definition Black : CRGB := mkCRGB 0 0 0.

(** [color == (CRGB) CRGB::White]: channel-wise comparison. *)
Definition CRGB_eqb (x y : CRGB) : bool :=
  (rgb_r x =? rgb_r y) && (rgb_g x =? rgb_g y) && (rgb_b x =? rgb_b y).

(** Modelled from the spec: the header [FastLED_RGBW.h], which declares the
    assignment of a [CRGB] to a [CRGBW] cell used by [leds[i] = color], is not
    among the sources.  The specification describes the unlit colour as
    "all channels zero", so the assignment copies the three colour channels
    and clears the white channel. *)
Definition CRGBW_of_CRGB (c : CRGB) : CRGBW :=
  mkCRGBW (rgb_r c) (rgb_g c) (rgb_b c) 0.

(** The colour written for a lit pixel, [CRGBW(0, 0, 0, 255)], and the one
    left by [leds[i] = CRGB::Black]. *)
Definition white : CRGBW := mkCRGBW 0 0 0 255.
Definition black : CRGBW := CRGBW_of_CRGB Black.

(** ** Global state and events *)

(** [#define NUM_LEDS 214] *)
Definition NUM_LEDS : Z := 214.

(** The global variables of the sketch that the modelled functions touch,
    and the brightness held by the FastLED driver ([FastLED.setBrightness]). *)
Record State := mkState {
  leds : list CRGBW;          (* CRGBW leds[NUM_LEDS] *)
  brightness : Z;             (* uint8_t brightness *)
  oldBrightness : Z;          (* uint8_t oldBrightness *)
  oldHour : Z;                (* uint8_t oldHour *)
  oldMinute : Z;              (* uint8_t oldMinute *)
  masterState : bool;         (* bool masterState *)
  driverBrightness : Z        (* FastLED's global brightness scale *)
}.

Definition set_leds (l : list CRGBW) (st : State) : State :=
  mkState l (brightness st) (oldBrightness st) (oldHour st) (oldMinute st)
          (masterState st) (driverBrightness st).
Definition set_brightness (v : Z) (st : State) : State :=
  mkState (leds st) v (oldBrightness st) (oldHour st) (oldMinute st)
          (masterState st) (driverBrightness st).
Definition set_oldBrightness (v : Z) (st : State) : State :=
  mkState (leds st) (brightness st) v (oldHour st) (oldMinute st)
          (masterState st) (driverBrightness st).
Definition set_oldHour (v : Z) (st : State) : State :=
  mkState (leds st) (brightness st) (oldBrightness st) v (oldMinute st)
          (masterState st) (driverBrightness st).
Definition set_oldMinute (v : Z) (st : State) : State :=
  mkState (leds st) (brightness st) (oldBrightness st) (oldHour st) v
          (masterState st) (driverBrightness st).
Definition set_masterState (v : bool) (st : State) : State :=
  mkState (leds st) (brightness st) (oldBrightness st) (oldHour st)
          (oldMinute st) v (driverBrightness st).
Definition set_driverBrightness (v : Z) (st : State) : State :=
  mkState (leds st) (brightness st) (oldBrightness st) (oldHour st)
          (oldMinute st) (masterState st) v.

(** What a computation does that is visible outside the buffer, in program
    order: a write of one buffer cell, a push of the buffer to the strip
    ([FastLED.show()]), a [delay], a change of the driver's brightness, and
    the assignments to the two "old time" trackers. *)
Inductive Event :=
| EvPixel (i : Z) (c : CRGBW)
| EvShow
| EvDelay (ms : Z)
| EvSetBrightness (v : Z)
| EvOldMinute (v : Z)
| EvOldHour (v : Z).

(** Array accesses outside the declared bounds: undefined behaviour in C++. *)
Inductive Fault :=
| NumberMapOob (row col : Z)
| DigitMapOob (i : Z)
| LedsOob (i : Z).

(** A computation either returns, with the new state and the events it
    emitted, or stops at an undefined access, with the state and the events
    up to that point. *)
Inductive Result (A : Type) :=
| Ok (a : A) (st : State) (tr : list Event)
| Undefined (f : Fault) (st : State) (tr : list Event).
Arguments Ok {A} a st tr.
Arguments Undefined {A} f st tr.

Definition M (A : Type) : Type := State → Result A.

Definition ret {A} (a : A) : M A := λ st, Ok a st [].

Definition bind {A B} (m : M A) (k : A → M B) : M B := λ st,
  match m st with
  | Ok a st1 tr1 =>
      match k a st1 with
      | Ok b0 st2 tr2 => Ok b0 st2 (tr1 ++ tr2)
      | Undefined f st2 tr2 => Undefined f st2 (tr1 ++ tr2)
      end
  | Undefined f st1 tr1 => Undefined f st1 tr1
  end.

Notation "x <- m ;; k" := (bind m (λ x, k))
  (at level 100, m at next level, k at level 200, right associativity).
Notation "m ;; k" := (bind m (λ _, k))
  (at level 100, k at level 200, right associativity).

Definition fault {A} (f : Fault) : M A := λ st, Undefined f st [].
Definition emit (e : Event) : M unit := λ st, Ok tt st [e].
Definition gets {A} (f : State → A) : M A := λ st, Ok (f st) st [].
Definition modify (f : State → State) : M unit := λ st, Ok tt (f st) [].

(** C++ integer conversions used by the sketch. *)
Definition to_uint8 (v : Z) : Z := v mod 256.
Definition to_unsigned (v : Z) : Z := v mod 2 ^ 32.

(** ** The tables *)

(** [const int numberMap[10][50]]: the initialiser lists.  The declared rows
    have 50 columns; the columns after an initialiser list hold 0. *)
Definition numberMap : list (list Z) :=
  [ [0; 1; 2; 3; 4; 5; 6; 7; 8; 9; 10; 11; 12; 13; 14; 15; 16; 17; 18; 19;
     25; 26; 27; 28; 29; 30; 31; 32; 33; 34];
    [0; 1; 2; 3; 4; 5; 6; 7; 8; 9];
    [5; 6; 7; 8; 9; 10; 11; 12; 13; 14; 20; 21; 22; 23; 24; 25; 26; 27; 28;
     29; 30; 31; 32; 33; 34];
    [0; 1; 2; 3; 4; 5; 6; 7; 8; 9; 10; 11; 12; 13; 14; 20; 21; 22; 23; 24;
     30; 31; 32; 33; 34];
    [0; 1; 2; 3; 4; 5; 6; 7; 8; 9; 15; 16; 17; 18; 19; 20; 21; 22; 23; 24];
    [0; 1; 2; 3; 4; 10; 11; 12; 13; 14; 15; 16; 17; 18; 19; 20; 21; 22; 23;
     24; 30; 31; 32; 33; 34];
    [0; 1; 2; 3; 4; 10; 11; 12; 13; 14; 15; 16; 17; 18; 19; 20; 21; 22; 23;
     24; 25; 26; 27; 28; 29; 30; 31; 32; 33; 34];
    [0; 1; 2; 3; 4; 5; 6; 7; 8; 9; 10; 11; 12; 13; 14];
    [0; 1; 2; 3; 4; 5; 6; 7; 8; 9; 10; 11; 12; 13; 14; 15; 16; 17; 18; 19;
     20; 21; 22; 23; 24; 25; 26; 27; 28; 29; 30; 31];
    [0; 1; 2; 3; 4; 5; 6; 7; 8; 9; 10; 11; 12; 13; 14; 15; 16; 17; 18; 19;
     20; 21; 22; 23; 24] ].

(** The offsets listed for a digit: row [time] of the initialiser. *)
Definition litOffsets (time : Z) : list Z := nth (Z.to_nat time) numberMap [].

(** [numberMap[i][j]]: inside the 10 x 50 array the listed offset, or the 0
    the compiler filled in; outside it the access is undefined. *)
Definition numberMap_at (i j : Z) : M Z :=
  if (0 <=? i) && (i <? 10) && (0 <=? j) && (j <? 50)
  then ret (nth (Z.to_nat j) (litOffsets i) 0)
  else fault (NumberMapOob i j).

(** [uint8_t digitMap[] = {0, 35, 70, 105, 140, 175, 210}] *)
Definition digitMap : list Z := [0; 35; 70; 105; 140; 175; 210].

Definition digitMap_at (i : Z) : M Z :=
  if (0 <=? i) && (i <? 7)
  then ret (nth (Z.to_nat i) digitMap 0)
  else fault (DigitMapOob i).

(** ** The renderer *)

(** [leds[i] = c] *)
Definition writeLed (i : Z) (c : CRGBW) : M unit := λ st,
  if (0 <=? i) && (i <? NUM_LEDS)
  then Ok tt (set_leds (<[Z.to_nat i := c]> (leds st)) st) [EvPixel i c]
  else Undefined (LedsOob i) st [].

(** [FastLED.show()] and [delay(ms)] *)
Definition show : M unit := emit EvShow.
Definition delay (ms : Z) : M unit := emit (EvDelay ms).

(** [void controlPixel(int pixelNumber, CRGB color)] *)
Definition controlPixel (pixelNumber : Z) (color : CRGB) : M unit :=
  if CRGB_eqb color White then
    writeLed pixelNumber (mkCRGBW 0 0 0 255) ;;
    show
  else
    writeLed pixelNumber (CRGBW_of_CRGB color) ;;
    show.

(** The body of the pixel loop of [setClockSegment], with its three loop
    variables [a], [arrayTracker] and [arrayOffset]; [n] counts the
    iterations that remain until [a] reaches [digitMap[segment + 1]]. *)
Fixpoint pixelLoop (n : nat) (time a arrayTracker arrayOffset : Z) : M unit :=
  match n with
  | O => ret tt
  | S n' =>
      v <- numberMap_at time arrayTracker ;;
      if v =? arrayOffset then
        controlPixel a White ;;
        pixelLoop n' time (a + 1) (arrayTracker + 1) (arrayOffset + 1)
      else
        controlPixel a Black ;;
        pixelLoop n' time (a + 1) arrayTracker (arrayOffset + 1)
  end.

(** [void setClockSegment(int segment, int time)] *)
Definition setClockSegment (segment time : Z) : M unit :=
  lo <- digitMap_at segment ;;
  hi <- digitMap_at (segment + 1) ;;
  pixelLoop (Z.to_nat (hi - lo)) time lo 0 0.

(** ** Time to segments *)

(** [oldMinute = minute] and [oldHour = hour]: stores into [uint8_t]. *)
Definition assign_oldMinute (v : Z) : M unit :=
  modify (set_oldMinute (to_uint8 v)) ;;
  emit (EvOldMinute (to_uint8 v)).
Definition assign_oldHour (v : Z) : M unit :=
  modify (set_oldHour (to_uint8 v)) ;;
  emit (EvOldHour (to_uint8 v)).

(** The two digit expressions of the sketch: [x % 10] on [int], and
    [(x / 10U) % 10], which is computed on [unsigned]. *)
Definition unitsDigit (x : Z) : Z := Z.rem x 10.
Definition tensDigit (x : Z) : Z := (to_unsigned x / 10) mod 10.

(** [void setClockTime(int hour, int minute, int second)] *)
Definition setClockTime (hour minute second : Z) : M unit :=
  om <- gets oldMinute ;;
  if om =? minute then
    setClockSegment 0 (unitsDigit second) ;;
    setClockSegment 1 (tensDigit second)
  else
    oh <- gets oldHour ;;
    if oh =? hour then
      setClockSegment 0 (unitsDigit second) ;;
      setClockSegment 1 (tensDigit second) ;;
      delay 10 ;;
      setClockSegment 2 (unitsDigit minute) ;;
      setClockSegment 3 (tensDigit minute) ;;
      assign_oldMinute minute
    else
      setClockSegment 0 (unitsDigit second) ;;
      setClockSegment 1 (tensDigit second) ;;
      delay 10 ;;
      setClockSegment 2 (unitsDigit minute) ;;
      setClockSegment 3 (tensDigit minute) ;;
      delay 10 ;;
      setClockSegment 4 (unitsDigit hour) ;;
      setClockSegment 5 (tensDigit hour) ;;
      assign_oldMinute minute ;;
      assign_oldHour hour.

(** ** Start-up test *)

(** The loop of [colorFill]: [i] runs up to [NUM_LEDS], [n] iterations
    remain. *)
Fixpoint fillLoop (n : nat) (c : CRGB) (speed i : Z) : M unit :=
  match n with
  | O => ret tt
  | S n' =>
      (if CRGB_eqb c White then
         writeLed i (mkCRGBW 0 0 0 255) ;;
         show
       else
         writeLed i (CRGBW_of_CRGB c) ;;
         show) ;;
      delay speed ;;
      fillLoop n' c speed (i + 1)
  end.

(** [void colorFill(CRGB c, int speed)] *)
Definition colorFill (c : CRGB) (speed : Z) : M unit :=
  fillLoop (Z.to_nat NUM_LEDS) c speed 0.

(** [void pixelTest()] (the colour sweeps at its head are commented out in
    the sketch). *)
Definition pixelTest : M unit :=
  delay 100 ;;
  setClockTime 0 0 0 ;;
  delay 100 ;;
  setClockTime 11 11 11 ;;
  delay 100 ;;
  setClockTime 22 22 22 ;;
  delay 100 ;;
  setClockTime 33 33 33 ;;
  delay 100 ;;
  setClockTime 44 44 44 ;;
  delay 100 ;;
  setClockTime 55 55 55 ;;
  delay 100 ;;
  setClockTime 66 66 66 ;;
  delay 100 ;;
  setClockTime 77 77 77 ;;
  delay 100 ;;
  setClockTime 88 88 88 ;;
  delay 100 ;;
  setClockTime 99 99 99 ;;
  delay 100 ;;
  colorFill Black 1.

(** ** Remote control *)

(** [FastLED.setBrightness(v)] *)
Definition setBrightness (v : Z) : M unit :=
  modify (set_driverBrightness v) ;;
  emit (EvSetBrightness v).

(** A C string read from memory: the bytes up to the first NUL. *)
Fixpoint cString (bytes : string) : string :=
  match bytes with
  | EmptyString => EmptyString
  | String c rest =>
      if Ascii.eqb c Ascii.zero then EmptyString else String c (cString rest)
  end.

(** The [String message] that [callback] builds.  The first [length]
    bytes of the payload are copied into [char buffer[length]], an array with
    no room for a terminator, and [String(buffer)] reads from the start of
    that array up to the first NUL: it holds the copied bytes (cut short if
    they carry a NUL) and then goes on with [stray], the bytes that follow
    the array in memory. *)
Definition bufferString (payload : string) (length : nat) (stray : string) :
    string :=
  cString (String.append (String.substring 0 length payload) stray).

Section Callback.

(** [String::toInt] of the Arduino core, which the sketch calls on the
    received message. *)
Variable toInt : string → Z.

(** [void callback(char topic[], unsigned char payload[], unsigned int
    length)].  [payload] is the array the client passes, [length] the number
    of its bytes that are copied, and [stray] what lies behind the local
    [buffer] at this call; the serial log is left out. *)
Definition callback (topic payload : string) (length : nat)
    (stray : string) : M unit :=
  let message := bufferString payload length stray in
  (if String.eqb topic "LEDClock/Brightness" then
     modify (set_brightness (to_uint8 (toInt message))) ;;
     v <- gets brightness ;;
     modify (set_oldBrightness v) ;;
     v <- gets brightness ;;
     setBrightness v ;;
     show
   else ret tt) ;;
  if String.eqb topic "LEDClock/State" then
    if String.eqb message "true" then
      v <- gets oldBrightness ;;
      modify (set_brightness v) ;;
      v <- gets brightness ;;
      setBrightness v ;;
      show ;;
      modify (set_masterState true)
    else
      v <- gets brightness ;;
      modify (set_oldBrightness v) ;;
      modify (set_brightness 0) ;;
      v <- gets brightness ;;
      setBrightness v ;;
      show ;;
      modify (set_masterState false)
  else ret tt.

End Callback.

(** ** The RTC draft of the sketch *)

(** The repository also holds an earlier draft of the driver, for a
    real-time-clock module.  Its [digitMap] is incomplete (two entries are
    placeholders), so its [setClockTime] is embedded over the segment
    renderer it calls. *)
Module Draft.
Section SetClockTime.

Context {St : Type}.
Variable setClockSegment : Z → Z → St → St.

(** [void setClockTime(Integer hour, Integer minute, Integer second)] *)
Definition setClockTime (hour minute second : Z) (st : St) : St :=
  let secondRight := unitsDigit second in   (* Segment 0 *)
  let secondLeft := tensDigit second in     (* Segment 1 *)
  let minuteRight := unitsDigit second in   (* Segment 2 *)
  let minuteLeft := tensDigit second in     (* Segment 3 *)
  let hourRight := unitsDigit second in     (* Segment 4 *)
  let hourLeft := tensDigit second in       (* Segment 5 *)
  let st := setClockSegment 0 secondRight st in
  let st := setClockSegment 1 secondLeft st in
  let st := setClockSegment 2 minuteRight st in
  let st := setClockSegment 3 minuteLeft st in
  let st := setClockSegment 4 hourRight st in
  setClockSegment 5 hourLeft st.

End SetClockTime.

(** A renderer that only records the calls it receives. *)
Definition recordSegment (segment time : Z) (calls : list (Z * Z)) :
    list (Z * Z) :=
  calls ++ [(segment, time)].

End Draft.

(** ** Observations *)

(** The state in which [setup] starts: globals with their initialisers,
    the others zero. *)
Definition bootState : State :=
  mkState (replicate (Z.to_nat NUM_LEDS) (mkCRGBW 0 0 0 0))
          128 100 0 0 true 128.

(** The buffer has its declared size. *)
Definition wf (st : State) : Prop := length (leds st) = Z.to_nat NUM_LEDS.

(** First pixel of a digit position (and, at [segment + 1], one past its
    last pixel). *)
Definition digitStart (segment : Z) : Z := nth (Z.to_nat segment) digitMap 0.

Definition isShow (e : Event) : bool :=
  match e with EvShow => true | _ => false end.
Definition isTracker (e : Event) : bool :=
  match e with EvOldMinute _ | EvOldHour _ => true | _ => false end.

(** Number of pushes to the strip in a trace. *)
Definition shows (tr : list Event) : nat := length (filter isShow tr).

(** A digit position was redrawn: the trace writes a pixel of its range. *)
Definition inSegment (segment : Z) (e : Event) : bool :=
  match e with
  | EvPixel i _ => (digitStart segment <=? i) && (i <? digitStart (segment + 1))
  | _ => false
  end.
Definition redrawn (segment : Z) (tr : list Event) : bool :=
  existsb (inSegment segment) tr.

(** The colour the glyph of digit [time] has at local offset [off]. *)
Definition glyphColor (time off : Z) : CRGBW :=
  if bool_decide (off ∈ litOffsets time) then white else black.

(** The colours of [n] consecutive pixels of a glyph, from offset [off]. *)
Fixpoint glyph (n : nat) (time off : Z) : list CRGBW :=
  match n with
  | O => []
  | S n' => glyphColor time off :: glyph n' time (off + 1)
  end.

(** The events of writing the colours [cs] from pixel [a] on, each write
    followed by its push. *)
Fixpoint pixelEvents (a : Z) (cs : list CRGBW) : list Event :=
  match cs with
  | [] => []
  | c :: cs' => EvPixel a c :: EvShow :: pixelEvents (a + 1) cs'
  end.

(** The buffer after a digit position has been drawn. *)
Definition render (segment time : Z) (l : list CRGBW) : list CRGBW :=
  take (Z.to_nat (digitStart segment)) l
  ++ glyph 35 time 0
  ++ drop (Z.to_nat (digitStart (segment + 1))) l.

(** What the cursor scan needs of a row of the glyph table: offsets strictly
    increasing, at least one of them, all inside a 35-pixel digit, and fewer
    than the 50 declared columns. *)
Definition row_ok (row : list Z) : Prop :=
  StronglySorted Z.lt row ∧ row ≠ [] ∧ Forall (λ x, 0 ≤ x < 35) row
  ∧ (length row < 50)%nat.

(** The invariant of the scan at local offset [off]: the cursor stands after
    the listed offsets below [off] ([pre]) and before the others ([rest]). *)
Definition cursor_at (row pre rest : list Z) (off : Z) : Prop :=
  row = pre ++ rest ∧ Forall (λ x, x < off) pre ∧ Forall (λ x, off ≤ x) rest.

(** The events of drawing digit [time] at position [segment]. *)
Definition segmentEvents (segment time : Z) : list Event :=
  pixelEvents (35 * segment) (glyph 35 time 0).

(** The buffer after the seconds, minute and hour digit pairs are drawn. *)
Definition drawSeconds (second : Z) (l : list CRGBW) : list CRGBW :=
  render 1 (tensDigit second) (render 0 (unitsDigit second) l).
Definition drawMinutes (minute : Z) (l : list CRGBW) : list CRGBW :=
  render 3 (tensDigit minute) (render 2 (unitsDigit minute) l).
Definition drawHours (hour : Z) (l : list CRGBW) : list CRGBW :=
  render 5 (tensDigit hour) (render 4 (unitsDigit hour) l).

(** A state left by a tick at 10:15: the trackers hold hour 10, minute 15. *)
Definition staleState : State := set_oldMinute 15 (set_oldHour 10 bootState).

(** The base-10 split in the specification's words, listed by digit
    position: units and tens of the second, of the minute, of the hour. *)
Definition decompose (hour minute second : Z) : list Z :=
  [ second mod 10; (second / 10) mod 10;
    minute mod 10; (minute / 10) mod 10;
    hour mod 10; (hour / 10) mod 10 ].

(** The events of one tick, by the branch [setClockTime] takes. *)
Definition secondsEvents (second : Z) : list Event :=
  segmentEvents 0 (unitsDigit second) ++ segmentEvents 1 (tensDigit second).
Definition minutesEvents (minute : Z) : list Event :=
  segmentEvents 2 (unitsDigit minute) ++ segmentEvents 3 (tensDigit minute).
Definition hoursEvents (hour : Z) : list Event :=
  segmentEvents 4 (unitsDigit hour) ++ segmentEvents 5 (tensDigit hour).

(** A reading of [String::toInt] on messages made of decimal digits: the
    digits are accumulated up to the first other character. *)
Fixpoint parseDigits (acc : Z) (s : string) : Z :=
  match s with
  | EmptyString => acc
  | String c s' =>
      let d := Z.of_nat (Ascii.nat_of_ascii c) - 48 in
      if (0 <=? d) && (d <=? 9) then parseDigits (10 * acc + d) s' else acc
  end.
Definition decimalToInt (s : string) : Z := parseDigits 0 s.

(** ** The copy of the sketch without trackers *)

(** [ClockDriver.ino] holds a second copy of the NTP sketch, with the same
    tables, [setClockSegment] and [controlPixel], whose [setClockTime] draws
    the seconds and minute pairs on every tick; its two hour calls are
    commented out. *)
Module Early.

(** [void setClockTime(int hour, int minute, int second)] *)
Definition setClockTime (hour minute second : Z) : M unit :=
  setClockSegment 0 (unitsDigit second) ;;
  setClockSegment 1 (tensDigit second) ;;
  setClockSegment 2 (unitsDigit minute) ;;
  setClockSegment 3 (tensDigit minute).

End Early.

(** ** Reading the display *)

(** Digit position [p] of the buffer [l] shows the glyph of digit [d]. *)
Definition showsDigit (l : list CRGBW) (p d : Z) : Prop :=
  ∀ off, 0 ≤ off < 35 →
    l !! Z.to_nat (digitStart p + off) = Some (glyphColor d off).

(** All six positions show the time [hour]:[minute]:[second]. *)
Definition timeShown (l : list CRGBW) (hour minute second : Z) : Prop :=
  ∀ p, 0 ≤ p ≤ 5 →
    showsDigit l p (nth (Z.to_nat p) (decompose hour minute second) 0).

(** The minute and hour positions show the values held by the trackers. *)
Definition trackersShown (st : State) : Prop :=
  showsDigit (leds st) 2 (oldMinute st mod 10)
  ∧ showsDigit (leds st) 3 ((oldMinute st / 10) mod 10)
  ∧ showsDigit (leds st) 4 (oldHour st mod 10)
  ∧ showsDigit (leds st) 5 ((oldHour st / 10) mod 10).

(** A time as the NTP client reports it. *)
Definition validTime (t : Z * Z * Z) : Prop :=
  let '(hour, minute, second) := t in
  0 ≤ hour ≤ 23 ∧ 0 ≤ minute ≤ 59 ∧ 0 ≤ second ≤ 59.

(** The calls of [setClockTime] that successive passes of [loop] make for
    the times [ts] it reads, in order. *)
Fixpoint ticks (ts : list (Z * Z * Z)) : M unit :=
  match ts with
  | [] => ret tt
  | (hour, minute, second) :: ts' =>
      setClockTime hour minute second ;;
      ticks ts'
  end.

(** A run of times in which the hour never changes while the minute stays
    the same, starting after the time [hour]:[minute]. *)
Fixpoint steady (hour minute : Z) (ts : list (Z * Z * Z)) : Prop :=
  match ts with
  | [] => True
  | (hour', minute', second') :: ts' =>
      (minute = minute' → hour = hour')
      ∧ validTime (hour', minute', second')
      ∧ steady hour' minute' ts'
  end.

(** The cell [colorFill] and [controlPixel] store for the colour [c]. *)
Definition cellOf (c : CRGB) : CRGBW :=
  if CRGB_eqb c White then mkCRGBW 0 0 0 255 else CRGBW_of_CRGB c.

(** The events of [colorFill]: per pixel a write, a push and a pause. *)
Fixpoint fillEvents (n : nat) (i : Z) (c : CRGBW) (speed : Z) : list Event :=
  match n with
  | O => []
  | S n' =>
      EvPixel i c :: EvShow :: EvDelay speed :: fillEvents n' (i + 1) c speed
  end.

(** The brightness variable and the driver agree, and while the clock is on
    the saved brightness equals the current one. *)
Definition brightnessSynced (st : State) : Prop :=
  brightness st = driverBrightness st
  ∧ (masterState st = true → brightness st = oldBrightness st).

(** The state after the tick 10:15:00 from the boot state. *)
Definition tickedState : State :=
  match setClockTime 10 15 0 bootState with
  | Ok _ st _ => st
  | Undefined _ st _ => st
  end.

(** The variables declared [uint8_t], and the driver's brightness, hold
    values a byte can hold. *)
Definition uint8_ok (st : State) : Prop :=
  0 ≤ brightness st < 256 ∧ 0 ≤ oldBrightness st < 256
  ∧ 0 ≤ oldHour st < 256 ∧ 0 ≤ oldMinute st < 256
  ∧ 0 ≤ driverBrightness st < 256.

(** The event is a write to the pixel buffer. *)
Definition isPixelWrite (e : Event) : bool :=
  match e with EvPixel _ _ => true | _ => false end.

(** ** Waiting *)

Section DelayWithMQTT.

(** [client.loop()] of PubSubClient: whatever it does to the sketch's
    variables (it may run [callback]). *)
Variable clientLoop : M unit.

(** The loop of [delayWithMQTT].  [readings] are the values the successive
    calls of [millis()] return; each test of the loop condition takes one.
    When they run out the loop is still waiting, and the result is [None];
    otherwise it is the readings left for later calls. *)
Fixpoint waitLoop (deadline : Z) (readings : list Z) : M (option (list Z)) :=
  match readings with
  | [] => ret None
  | now :: rest =>
      if deadline >? now then
        clientLoop ;;
        waitLoop deadline rest
      else ret (Some rest)
  end.

(** [void delayWithMQTT(int delay)]: [currentMillis + delay] is computed on
    [unsigned long], 32 bits wide on the ESP8266. *)
Definition delayWithMQTT (delay : Z) (readings : list Z) :
    M (option (list Z)) :=
  match readings with
  | [] => ret None
  | currentMillis :: rest =>
      waitLoop (to_unsigned (currentMillis + to_unsigned delay)) rest
  end.

End DelayWithMQTT.

(** * Properties *)

(** ** The monad *)

Lemma bind_Ok {A B} (m : M A) (k : A → M B) st a st1 tr1 :
  m st = Ok a st1 tr1 →
  bind m k st =
    match k a st1 with
    | Ok b0 st2 tr2 => Ok b0 st2 (tr1 ++ tr2)
    | Undefined f st2 tr2 => Undefined f st2 (tr1 ++ tr2)
    end.
Proof. intros E. unfold bind. now rewrite E. Qed.

Lemma bind_Undefined {A B} (m : M A) (k : A → M B) st f st1 tr1 :
  m st = Undefined f st1 tr1 → bind m k st = Undefined f st1 tr1.
Proof. intros E. unfold bind. now rewrite E. Qed.

Lemma set_leds_id st : set_leds (leds st) st = st.
Proof. now destruct st. Qed.

(** ** The tables *)

Lemma digitStart_35 segment :
  0 ≤ segment ≤ 6 → digitStart segment = 35 * segment.
Proof.
  intros H.
  assert (segment = 0 ∨ segment = 1 ∨ segment = 2 ∨ segment = 3
          ∨ segment = 4 ∨ segment = 5 ∨ segment = 6) as Hs by lia.
  destruct Hs as [->|[->|[->|[->|[->|[->| ->]]]]]]; reflexivity.
Qed.

Lemma digitMap_at_ok segment st :
  0 ≤ segment ≤ 6 → digitMap_at segment st = Ok (35 * segment) st [].
Proof.
  intros H. unfold digitMap_at.
  replace ((0 <=? segment) && (segment <? 7)) with true
    by (symmetry; apply andb_true_intro; split; lia).
  unfold ret. f_equal. now apply digitStart_35.
Qed.

Lemma numberMap_rows_ok time : 0 ≤ time < 10 → row_ok (litOffsets time).
Proof.
  intros H.
  assert (time = 0 ∨ time = 1 ∨ time = 2 ∨ time = 3 ∨ time = 4 ∨ time = 5
          ∨ time = 6 ∨ time = 7 ∨ time = 8 ∨ time = 9) as Hs by lia.
  unfold row_ok.
  destruct Hs as [->|[->|[->|[->|[->|[->|[->|[->|[->| ->]]]]]]]]];
    (split; [apply (bool_decide_unpack _); vm_compute; reflexivity|]);
    (split; [discriminate|]);
    (split; [apply (bool_decide_unpack _); vm_compute; reflexivity|]);
    vm_compute; lia.
Qed.

Lemma numberMap_at_ok time k st :
  0 ≤ time < 10 → 0 ≤ k < 50 →
  numberMap_at time k st = Ok (nth (Z.to_nat k) (litOffsets time) 0) st [].
Proof.
  intros Ht Hk. unfold numberMap_at.
  replace ((0 <=? time) && (time <? 10) && (0 <=? k) && (k <? 50)) with true;
    [reflexivity|].
  symmetry. repeat (apply andb_true_intro; split); lia.
Qed.

(** ** Writing one pixel *)

Lemma writeLed_ok i c st :
  0 ≤ i < NUM_LEDS →
  writeLed i c st = Ok tt (set_leds (<[Z.to_nat i := c]> (leds st)) st)
                       [EvPixel i c].
Proof.
  intros H. unfold writeLed.
  replace ((0 <=? i) && (i <? NUM_LEDS)) with true; [reflexivity|].
  symmetry. apply andb_true_intro; split; lia.
Qed.

Lemma controlPixel_White a st :
  0 ≤ a < NUM_LEDS →
  controlPixel a White st =
    Ok tt (set_leds (<[Z.to_nat a := white]> (leds st)) st)
       [EvPixel a white; EvShow].
Proof.
  intros H. unfold controlPixel. change (CRGB_eqb White White) with true.
  cbv iota.
  rewrite (bind_Ok _ _ _ _ _ _ (writeLed_ok a _ st H)). reflexivity.
Qed.

Lemma controlPixel_Black a st :
  0 ≤ a < NUM_LEDS →
  controlPixel a Black st =
    Ok tt (set_leds (<[Z.to_nat a := black]> (leds st)) st)
       [EvPixel a black; EvShow].
Proof.
  intros H. unfold controlPixel. change (CRGB_eqb Black White) with false.
  cbv iota.
  rewrite (bind_Ok _ _ _ _ _ _ (writeLed_ok a _ st H)). reflexivity.
Qed.

(** ** The cursor scan *)

(** With the cursor in place, the table cell under it equals the current
    offset exactly when that offset is listed in the row. *)
Lemma cursor_decides row pre rest off :
  row ≠ [] → Forall (λ x, 0 ≤ x) row → StronglySorted Z.lt rest →
  cursor_at row pre rest off →
  (nth (length pre) row 0 =? off) = bool_decide (off ∈ row).
Proof.
  intros Hne Hpos Hsort (-> & Hpre & Hrest).
  assert (off ∉ pre) as Hnotpre.
  { intros Hin. rewrite Forall_forall in Hpre. specialize (Hpre _ Hin). lia. }
  destruct rest as [|x rest'].
  - rewrite app_nil_r in *. rewrite nth_overflow by lia.
    rewrite bool_decide_eq_false_2 by assumption.
    apply Z.eqb_neq. intros <-.
    destruct pre as [|y pre']; [congruence|].
    apply Forall_cons_1 in Hpre as [Hy _].
    apply Forall_cons_1 in Hpos as [Hy' _]. lia.
  - rewrite nth_middle.
    apply Forall_cons_1 in Hrest as [Hx Hrest].
    apply StronglySorted_inv in Hsort as [_ Hgt].
    destruct (Z.eqb_spec x off) as [->|Hneq].
    + symmetry. apply bool_decide_eq_true_2.
      rewrite elem_of_app, elem_of_cons. tauto.
    + symmetry. apply bool_decide_eq_false_2.
      rewrite elem_of_app, elem_of_cons. intros [Hin|[Heq|Hin]];
        [tauto|lia|].
      rewrite Forall_forall in Hgt. specialize (Hgt _ Hin). lia.
Qed.

(** A match moves the cursor one cell on. *)
Lemma cursor_hit row pre rest off :
  StronglySorted Z.lt rest → cursor_at row pre rest off →
  off ∈ row →
  ∃ rest', rest = off :: rest' ∧ StronglySorted Z.lt rest'
           ∧ cursor_at row (pre ++ [off]) rest' (off + 1).
Proof.
  intros Hsort (-> & Hpre & Hrest) Hin.
  apply elem_of_app in Hin as [Hin|Hin].
  { rewrite Forall_forall in Hpre. specialize (Hpre _ Hin). lia. }
  destruct rest as [|x rest']; [now apply elem_of_nil in Hin|].
  apply Forall_cons_1 in Hrest as [Hx Hrest].
  apply StronglySorted_inv in Hsort as [Hsort Hgt].
  assert (x = off) as ->.
  { apply elem_of_cons in Hin as [->|Hin]; [reflexivity|].
    rewrite Forall_forall in Hgt. specialize (Hgt _ Hin).
    rewrite Forall_forall in Hrest. specialize (Hrest _ Hin). lia. }
  exists rest'. repeat split; try assumption.
  - now rewrite <- app_assoc.
  - apply Forall_app; split.
    + eapply Forall_impl; [exact Hpre|]. cbn. intros; lia.
    + constructor; [lia|constructor].
  - eapply Forall_impl; [exact Hgt|]. cbn. intros; lia.
Qed.

(** Without a match the cursor stays, and is in place for the next offset. *)
Lemma cursor_miss row pre rest off :
  cursor_at row pre rest off → off ∉ row →
  cursor_at row pre rest (off + 1).
Proof.
  intros (-> & Hpre & Hrest) Hnin. repeat split.
  - eapply Forall_impl; [exact Hpre|]. cbn. intros; lia.
  - rewrite Forall_forall in Hrest |- *. intros x Hx.
    specialize (Hrest _ Hx).
    assert (x ≠ off) by (intros ->; apply Hnin; rewrite elem_of_app; tauto).
    lia.
Qed.

(** ** The pixel loop *)

Lemma window_step (l : list CRGBW) (i n : nat) c cs :
  (i < length l)%nat →
  take (S i) (<[i := c]> l) ++ cs ++ drop (S i + n) (<[i := c]> l)
  = take i l ++ (c :: cs) ++ drop (i + S n) l.
Proof.
  intros Hi.
  rewrite (take_S_r _ _ c) by (now apply list_lookup_insert_eq).
  rewrite take_insert_ge by lia. rewrite drop_insert_lt by lia.
  rewrite <- app_assoc. cbn. now rewrite Nat.add_succ_r.
Qed.

(** The loop invariant, run to the end: [n] iterations from pixel [a] and
    local offset [off], with the cursor in place, write the glyph's colours
    into the [n] cells from [a] on and nothing else; every write is followed
    by a push. *)
Lemma pixelLoop_spec n : ∀ time pre rest a off st,
  0 ≤ time < 10 →
  StronglySorted Z.lt rest → cursor_at (litOffsets time) pre rest off →
  0 ≤ a → a + Z.of_nat n ≤ NUM_LEDS → wf st →
  pixelLoop n time a (Z.of_nat (length pre)) off st
  = Ok tt
       (set_leds (take (Z.to_nat a) (leds st) ++ glyph n time off
                  ++ drop (Z.to_nat a + n) (leds st)) st)
       (pixelEvents a (glyph n time off)).
Proof.
  induction n as [|n IH]; intros time pre rest a off st Ht Hsort Hcur Ha Hn Hwf.
  - cbn. unfold ret. rewrite Nat.add_0_r, take_drop. now rewrite set_leds_id.
  - destruct (numberMap_rows_ok time Ht) as (_ & Hne & Hrange & Hlen).
    assert (length pre ≤ length (litOffsets time))%nat as Hpl.
    { destruct Hcur as (-> & _). rewrite length_app. lia. }
    assert (Forall (λ x, 0 ≤ x) (litOffsets time)) as Hpos.
    { eapply Forall_impl; [exact Hrange|]. cbn. intros; lia. }
    assert (0 ≤ Z.of_nat (length pre) < 50) as Hk by lia.
    cbn [pixelLoop].
    rewrite (bind_Ok _ _ _ _ _ _
               (numberMap_at_ok time (Z.of_nat (length pre)) st Ht Hk)).
    rewrite Nat2Z.id.
    rewrite (cursor_decides _ _ _ _ Hne Hpos Hsort Hcur).
    assert (0 ≤ a < NUM_LEDS) as Ha' by lia.
    assert (Z.to_nat a < length (leds st))%nat as Hal.
    { unfold wf in Hwf. rewrite Hwf. lia. }
    assert (Z.to_nat (a + 1) = S (Z.to_nat a)) as Hsucc by lia.
    cbn [glyph pixelEvents]. unfold glyphColor.
    destruct (decide (off ∈ litOffsets time)) as [Hin|Hnin].
    + rewrite bool_decide_eq_true_2 by assumption.
      destruct (cursor_hit _ _ _ _ Hsort Hcur Hin) as (rest' & -> & Hs' & Hc').
      rewrite (bind_Ok _ _ _ _ _ _ (controlPixel_White a st Ha')).
      replace (Z.of_nat (length pre) + 1) with (Z.of_nat (length (pre ++ [off])))
        by (rewrite length_app; cbn; lia).
      rewrite (IH time _ rest' (a + 1) (off + 1) _ Ht Hs' Hc')
        by (unfold wf in *; cbn; rewrite ?length_insert; lia).
      cbn [app leds set_leds]. rewrite Hsucc, window_step by assumption.
      reflexivity.
    + rewrite bool_decide_eq_false_2 by assumption.
      rewrite (bind_Ok _ _ _ _ _ _ (controlPixel_Black a st Ha')).
      rewrite (IH time pre rest (a + 1) (off + 1) _ Ht Hsort
                 (cursor_miss _ _ _ _ Hcur Hnin))
        by (unfold wf in *; cbn; rewrite ?length_insert; lia).
      cbn [app leds set_leds]. rewrite Hsucc, window_step by assumption.
      reflexivity.
Qed.

(** ** Drawing one digit *)

Lemma length_glyph n time off : length (glyph n time off) = n.
Proof.
  revert off. induction n as [|n IH]; intros off; cbn; [|rewrite IH];
    reflexivity.
Qed.

Lemma glyph_lookup n : ∀ time off (j : nat),
  (j < n)%nat → glyph n time off !! j = Some (glyphColor time (off + Z.of_nat j)).
Proof.
  induction n as [|n IH]; intros time off j Hj; [lia|].
  destruct j as [|j]; cbn.
  - now rewrite Z.add_0_r.
  - rewrite IH by lia. do 2 f_equal. lia.
Qed.

Lemma render_unfold segment time l :
  0 ≤ segment ≤ 5 →
  render segment time l
  = take (Z.to_nat (35 * segment)) l ++ glyph 35 time 0
    ++ drop (Z.to_nat (35 * segment) + 35) l.
Proof.
  intros H. unfold render. rewrite !digitStart_35 by lia.
  do 3 f_equal. lia.
Qed.

Lemma length_render segment time l :
  0 ≤ segment ≤ 5 → length l = Z.to_nat NUM_LEDS →
  length (render segment time l) = Z.to_nat NUM_LEDS.
Proof.
  intros Hs Hl. rewrite render_unfold by assumption.
  rewrite !length_app, length_take, length_drop, length_glyph, Hl.
  unfold NUM_LEDS. lia.
Qed.

Lemma render_lookup_in segment time l off :
  0 ≤ segment ≤ 5 → length l = Z.to_nat NUM_LEDS → 0 ≤ off < 35 →
  render segment time l !! Z.to_nat (35 * segment + off)
  = Some (glyphColor time off).
Proof.
  intros Hs Hl Ho. rewrite render_unfold by assumption.
  assert (length (take (Z.to_nat (35 * segment)) l) = Z.to_nat (35 * segment))
    as Ht by (rewrite length_take, Hl; unfold NUM_LEDS; lia).
  rewrite lookup_app_r by (rewrite Ht; lia). rewrite Ht.
  rewrite lookup_app_l by (rewrite length_glyph; lia).
  rewrite glyph_lookup by lia. do 2 f_equal. lia.
Qed.

Lemma render_lookup_out segment time l (i : nat) :
  0 ≤ segment ≤ 5 → length l = Z.to_nat NUM_LEDS →
  Z.of_nat i < 35 * segment ∨ 35 * segment + 35 ≤ Z.of_nat i →
  render segment time l !! i = l !! i.
Proof.
  intros Hs Hl Hi. rewrite render_unfold by assumption.
  assert (length (take (Z.to_nat (35 * segment)) l) = Z.to_nat (35 * segment))
    as Ht by (rewrite length_take, Hl; unfold NUM_LEDS; lia).
  destruct Hi as [Hi|Hi].
  - rewrite lookup_app_l by (rewrite Ht; lia). apply lookup_take_lt. lia.
  - rewrite lookup_app_r by (rewrite Ht; lia). rewrite Ht.
    rewrite lookup_app_r by (rewrite length_glyph; lia).
    rewrite length_glyph, lookup_drop. f_equal. lia.
Qed.

Lemma render_idem segment time l :
  0 ≤ segment ≤ 5 → length l = Z.to_nat NUM_LEDS →
  render segment time (render segment time l) = render segment time l.
Proof.
  intros Hs Hl. rewrite !render_unfold by assumption.
  assert (length (take (Z.to_nat (35 * segment)) l) = Z.to_nat (35 * segment))
    as Ht by (rewrite length_take, Hl; unfold NUM_LEDS; lia).
  f_equal; [|f_equal].
  - now rewrite take_app_length'.
  - rewrite drop_app_ge by (rewrite Ht; lia). rewrite Ht.
    rewrite drop_app_ge by (rewrite length_glyph; lia).
    rewrite length_glyph, drop_drop. f_equal. lia.
Qed.

(** The effect of [setClockSegment] in closed form. *)
Lemma setClockSegment_spec segment time st :
  0 ≤ segment ≤ 5 → 0 ≤ time ≤ 9 → wf st →
  setClockSegment segment time st
  = Ok tt (set_leds (render segment time (leds st)) st)
       (segmentEvents segment time).
Proof.
  intros Hs Ht Hwf. unfold setClockSegment.
  rewrite (bind_Ok _ _ _ _ _ _ (digitMap_at_ok segment st ltac:(lia))).
  rewrite (bind_Ok _ _ _ _ _ _ (digitMap_at_ok (segment + 1) st ltac:(lia))).
  replace (Z.to_nat (35 * (segment + 1) - 35 * segment)) with 35%nat by lia.
  destruct (numberMap_rows_ok time ltac:(lia)) as (Hsort & _ & Hrange & _).
  assert (cursor_at (litOffsets time) [] (litOffsets time) 0) as Hcur.
  { repeat split; [constructor|].
    eapply Forall_impl; [exact Hrange|]. cbn. intros; lia. }
  pose proof (pixelLoop_spec 35 time [] (litOffsets time) (35 * segment) 0 st
                ltac:(lia) Hsort Hcur ltac:(lia)
                ltac:(unfold NUM_LEDS; lia) Hwf) as Hloop.
  cbn [length] in Hloop. change (Z.of_nat 0) with 0 in Hloop.
  rewrite Hloop. cbn [app]. now rewrite render_unfold by assumption.
Qed.

Lemma wf_set_leds l st :
  length l = Z.to_nat NUM_LEDS → wf (set_leds l st).
Proof. intros H. exact H. Qed.

(** ** Splitting a value into digits *)

Lemma unitsDigit_range x : 0 ≤ x → 0 ≤ unitsDigit x ≤ 9.
Proof.
  intros H. unfold unitsDigit.
  pose proof (Z.rem_bound_pos x 10 H ltac:(lia)). lia.
Qed.

Lemma tensDigit_range x : 0 ≤ tensDigit x ≤ 9.
Proof.
  unfold tensDigit.
  pose proof (Z.mod_pos_bound (to_unsigned x / 10) 10 ltac:(lia)). lia.
Qed.

(** ** One tick *)

Lemma wf_drawSeconds second l :
  0 ≤ second → length l = Z.to_nat NUM_LEDS →
  length (drawSeconds second l) = Z.to_nat NUM_LEDS.
Proof.
  intros Hs Hl. unfold drawSeconds. repeat apply length_render; lia || assumption.
Qed.

Lemma wf_drawMinutes minute l :
  0 ≤ minute → length l = Z.to_nat NUM_LEDS →
  length (drawMinutes minute l) = Z.to_nat NUM_LEDS.
Proof.
  intros Hs Hl. unfold drawMinutes. repeat apply length_render; lia || assumption.
Qed.

Lemma wf_drawHours hour l :
  0 ≤ hour → length l = Z.to_nat NUM_LEDS →
  length (drawHours hour l) = Z.to_nat NUM_LEDS.
Proof.
  intros Hs Hl. unfold drawHours. repeat apply length_render; lia || assumption.
Qed.

Ltac wf_tac :=
  unfold wf in *; cbn [leds set_leds set_oldMinute set_oldHour];
  repeat apply length_render; lia || assumption.

Ltac digit_tac :=
  first [ apply tensDigit_range | apply unitsDigit_range; lia ].

(** Run the next [setClockSegment] of a sequence through its closed form. *)
Ltac seg_step :=
  match goal with
  | |- context [bind (setClockSegment ?p ?v) ?k ?st] =>
      rewrite (bind_Ok _ k st _ _ _
                 (setClockSegment_spec p v st ltac:(lia) ltac:(digit_tac)
                    ltac:(wf_tac)));
      cbv beta
  | |- context [setClockSegment ?p ?v ?st] =>
      rewrite (setClockSegment_spec p v st ltac:(lia) ltac:(digit_tac)
                 ltac:(wf_tac))
  end.

Ltac delay_step :=
  match goal with
  | |- context [bind (delay ?ms) ?k ?st] =>
      rewrite (bind_Ok _ k st tt st [EvDelay ms] eq_refl); cbv beta
  end.

(** Minute unchanged: only the seconds pair is drawn. *)
Lemma setClockTime_same_minute hour minute second st :
  wf st → 0 ≤ second → oldMinute st = minute →
  setClockTime hour minute second st
  = Ok tt (set_leds (drawSeconds second (leds st)) st)
       (segmentEvents 0 (unitsDigit second)
        ++ segmentEvents 1 (tensDigit second)).
Proof.
  intros Hwf Hs Hm. unfold setClockTime.
  rewrite (bind_Ok _ _ st _ st [] eq_refl). cbv beta.
  rewrite (proj2 (Z.eqb_eq _ _) Hm).
  do 2 seg_step. reflexivity.
Qed.

(** Minute changed, hour unchanged: seconds and minutes are drawn. *)
Lemma setClockTime_same_hour hour minute second st :
  wf st → 0 ≤ second → 0 ≤ minute →
  oldMinute st ≠ minute → oldHour st = hour →
  setClockTime hour minute second st
  = Ok tt
       (set_oldMinute (to_uint8 minute)
          (set_leds (drawMinutes minute (drawSeconds second (leds st))) st))
       (segmentEvents 0 (unitsDigit second)
        ++ segmentEvents 1 (tensDigit second)
        ++ [EvDelay 10]
        ++ segmentEvents 2 (unitsDigit minute)
        ++ segmentEvents 3 (tensDigit minute)
        ++ [EvOldMinute (to_uint8 minute)]).
Proof.
  intros Hwf Hs Hmi Hm Hh. unfold setClockTime.
  rewrite (bind_Ok _ _ st _ st [] eq_refl). cbv beta.
  rewrite (proj2 (Z.eqb_neq _ _) Hm).
  rewrite (bind_Ok _ _ st _ st [] eq_refl). cbv beta.
  rewrite (proj2 (Z.eqb_eq _ _) Hh).
  do 2 seg_step. delay_step. do 2 seg_step. reflexivity.
Qed.

(** Minute and hour changed: all three pairs are drawn. *)
Lemma setClockTime_full hour minute second st :
  wf st → 0 ≤ second → 0 ≤ minute → 0 ≤ hour →
  oldMinute st ≠ minute → oldHour st ≠ hour →
  setClockTime hour minute second st
  = Ok tt
       (set_oldHour (to_uint8 hour)
          (set_oldMinute (to_uint8 minute)
             (set_leds (drawHours hour
                          (drawMinutes minute (drawSeconds second (leds st))))
                       st)))
       (segmentEvents 0 (unitsDigit second)
        ++ segmentEvents 1 (tensDigit second)
        ++ [EvDelay 10]
        ++ segmentEvents 2 (unitsDigit minute)
        ++ segmentEvents 3 (tensDigit minute)
        ++ [EvDelay 10]
        ++ segmentEvents 4 (unitsDigit hour)
        ++ segmentEvents 5 (tensDigit hour)
        ++ [EvOldMinute (to_uint8 minute); EvOldHour (to_uint8 hour)]).
Proof.
  intros Hwf Hs Hmi Hho Hm Hh. unfold setClockTime.
  rewrite (bind_Ok _ _ st _ st [] eq_refl). cbv beta.
  rewrite (proj2 (Z.eqb_neq _ _) Hm).
  rewrite (bind_Ok _ _ st _ st [] eq_refl). cbv beta.
  rewrite (proj2 (Z.eqb_neq _ _) Hh).
  do 2 seg_step. delay_step. do 2 seg_step. delay_step. do 2 seg_step.
  reflexivity.
Qed.

(** ** Reading traces *)

Lemma shows_app tr1 tr2 : shows (tr1 ++ tr2) = (shows tr1 + shows tr2)%nat.
Proof. unfold shows. now rewrite filter_app, length_app. Qed.

Lemma shows_pixelEvents cs : ∀ a, shows (pixelEvents a cs) = length cs.
Proof.
  induction cs as [|c cs IH]; intros a; [reflexivity|].
  cbn [pixelEvents length].
  change (shows (EvPixel a c :: EvShow :: pixelEvents (a + 1) cs))
    with (S (shows (pixelEvents (a + 1) cs))).
  now rewrite IH.
Qed.

Lemma shows_segmentEvents segment time :
  shows (segmentEvents segment time) = 35%nat.
Proof. unfold segmentEvents. now rewrite shows_pixelEvents, length_glyph. Qed.

Lemma redrawn_app segment tr1 tr2 :
  redrawn segment (tr1 ++ tr2) = redrawn segment tr1 || redrawn segment tr2.
Proof. apply existsb_app. Qed.

Lemma redrawn_segmentEvents p q time :
  0 ≤ p ≤ 5 → 0 ≤ q ≤ 5 →
  redrawn p (segmentEvents q time) = bool_decide (p = q).
Proof.
  intros Hp Hq.
  assert (p = 0 ∨ p = 1 ∨ p = 2 ∨ p = 3 ∨ p = 4 ∨ p = 5) as Hp' by lia.
  assert (q = 0 ∨ q = 1 ∨ q = 2 ∨ q = 3 ∨ q = 4 ∨ q = 5) as Hq' by lia.
  destruct Hp' as [->|[->|[->|[->|[->| ->]]]]];
    destruct Hq' as [->|[->|[->|[->|[->| ->]]]]]; reflexivity.
Qed.

Lemma no_tracker_pixelEvents cs : ∀ a, filter isTracker (pixelEvents a cs) = [].
Proof. induction cs as [|c cs IH]; intros a; [reflexivity|]. cbn. apply IH. Qed.

Lemma no_tracker_segmentEvents segment time :
  filter isTracker (segmentEvents segment time) = [].
Proof. apply no_tracker_pixelEvents. Qed.

Lemma pixelLoop_S n time a arrayTracker arrayOffset :
  pixelLoop (S n) time a arrayTracker arrayOffset
  = (v <- numberMap_at time arrayTracker ;;
     if v =? arrayOffset then
       controlPixel a White ;;
       pixelLoop n time (a + 1) (arrayTracker + 1) (arrayOffset + 1)
     else
       controlPixel a Black ;;
       pixelLoop n time (a + 1) arrayTracker (arrayOffset + 1)).
Proof. reflexivity. Qed.

Lemma setClockSegment_undefined segment time st :
  0 ≤ segment ≤ 5 → ¬ 0 ≤ time ≤ 9 →
  setClockSegment segment time st = Undefined (NumberMapOob time 0) st [].
Proof.
  intros Hs Ht. unfold setClockSegment.
  rewrite (bind_Ok _ _ _ _ _ _ (digitMap_at_ok segment st ltac:(lia))).
  rewrite (bind_Ok _ _ _ _ _ _ (digitMap_at_ok (segment + 1) st ltac:(lia))).
  replace (Z.to_nat (35 * (segment + 1) - 35 * segment)) with (S 34) by lia.
  rewrite pixelLoop_S.
  assert (numberMap_at time 0 st = Undefined (NumberMapOob time 0) st []) as E.
  { unfold numberMap_at.
    replace ((0 <=? time) && (time <? 10)) with false; [reflexivity|].
    symmetry. apply andb_false_iff. lia. }
  now rewrite (bind_Undefined _ _ _ _ _ _ E).
Qed.

Lemma setClockTime_shows hour minute second st :
  wf st → 0 ≤ hour → 0 ≤ minute → 0 ≤ second →
  ∃ st' tr,
    setClockTime hour minute second st = Ok tt st' tr ∧
    shows tr = if decide (oldMinute st = minute) then 70%nat
               else if decide (oldHour st = hour) then 140%nat else 210%nat.
Proof.
  intros Hwf Hh Hm Hs.
  destruct (decide (oldMinute st = minute)) as [Em|Em];
    [|destruct (decide (oldHour st = hour)) as [Eh|Eh]].
  - rewrite setClockTime_same_minute by assumption.
    eexists _, _. split; [reflexivity|].
    now rewrite !shows_app, !shows_segmentEvents.
  - rewrite setClockTime_same_hour by assumption.
    eexists _, _. split; [reflexivity|].
    now rewrite !shows_app, !shows_segmentEvents.
  - rewrite setClockTime_full by assumption.
    eexists _, _. split; [reflexivity|].
    now rewrite !shows_app, !shows_segmentEvents.
Qed.

(** * The claims about [setClockSegment] *)

(** Digit 1 at position 0 on the boot buffer: offsets 0 to 9 are lit, the
    next ones are not, and position 1 is untouched. *)
Example setClockSegment_0_1 :
  match setClockSegment 0 1 bootState with
  | Ok _ st tr =>
      take 12 (leds st) = replicate 10 white ++ replicate 2 black
      ∧ leds st !! 35%nat = Some (mkCRGBW 0 0 0 0)
      ∧ length tr = 70%nat
  | Undefined _ _ _ => False
  end.
Proof. vm_compute. repeat split. Qed.

(** Digit 2 starts unlit: offsets 0 to 4 are black, 5 is white. *)
Example setClockSegment_3_2 :
  match setClockSegment 3 2 bootState with
  | Ok _ st _ =>
      take 6 (drop 105 (leds st)) = replicate 5 black ++ [white]
  | Undefined _ _ _ => False
  end.
Proof. vm_compute. reflexivity. Qed.

(** C1. For every digit position 0-5 and digit value 0-9, after
    [setClockSegment position value] the pixel at absolute index
    [digitMap[position] + off] is white, [CRGBW(0,0,0,255)], exactly when
    [off] is listed in [numberMap[value]], and every other pixel of
    [[digitMap[position], digitMap[position+1])] is black; the rows of
    [numberMap] are strictly increasing, which is what makes the single-pass
    cursor scan compute this membership. *)
Theorem setClockSegment_draws_glyph segment time st :
  0 ≤ segment ≤ 5 → 0 ≤ time ≤ 9 → wf st →
  StronglySorted Z.lt (litOffsets time) ∧
  ∃ st' tr,
    setClockSegment segment time st = Ok tt st' tr ∧
    ∀ off, 0 ≤ off < digitStart (segment + 1) - digitStart segment →
      leds st' !! Z.to_nat (digitStart segment + off)
      = Some (if bool_decide (off ∈ litOffsets time)
              then mkCRGBW 0 0 0 255 else mkCRGBW 0 0 0 0).
Proof.
  intros Hs Ht Hwf. split.
  { now destruct (numberMap_rows_ok time ltac:(lia)). }
  rewrite setClockSegment_spec by assumption.
  eexists _, _. split; [reflexivity|].
  intros off. rewrite !digitStart_35 by lia. intros Ho.
  cbn [leds set_leds]. rewrite render_lookup_in by (assumption || lia).
  reflexivity.
Qed.

Lemma setClockSegment_draws_glyph_witness :
  0 ≤ 2 ≤ 5 ∧ 0 ≤ 7 ≤ 9 ∧ wf bootState ∧
  (StronglySorted Z.lt (litOffsets 7) ∧
   ∃ st' tr,
     setClockSegment 2 7 bootState = Ok tt st' tr ∧
     ∀ off, 0 ≤ off < digitStart (2 + 1) - digitStart 2 →
       leds st' !! Z.to_nat (digitStart 2 + off)
       = Some (if bool_decide (off ∈ litOffsets 7)
               then mkCRGBW 0 0 0 255 else mkCRGBW 0 0 0 0)).
Proof.
  split; [lia|]. split; [lia|]. split; [reflexivity|].
  apply (setClockSegment_draws_glyph 2 7 bootState); [lia|lia|reflexivity].
Defined.

(** C8. [setClockSegment] is idempotent on the pixel buffer: for every
    position 0-5, value 0-9 and starting buffer, a second call with the same
    arguments leaves the buffer exactly as the first call left it. *)
Theorem setClockSegment_idempotent segment time st :
  0 ≤ segment ≤ 5 → 0 ≤ time ≤ 9 → wf st →
  ∃ st1 tr1 st2 tr2,
    setClockSegment segment time st = Ok tt st1 tr1 ∧
    setClockSegment segment time st1 = Ok tt st2 tr2 ∧
    leds st2 = leds st1.
Proof.
  intros Hs Ht Hwf.
  rewrite setClockSegment_spec by assumption.
  eexists _, _, _, _. split; [reflexivity|].
  rewrite setClockSegment_spec
    by (assumption || (apply wf_set_leds, length_render; assumption)).
  split; [reflexivity|].
  cbn [leds set_leds]. now apply render_idem.
Qed.

Lemma setClockSegment_idempotent_witness :
  0 ≤ 4 ≤ 5 ∧ 0 ≤ 8 ≤ 9 ∧ wf bootState ∧
  ∃ st1 tr1 st2 tr2,
    setClockSegment 4 8 bootState = Ok tt st1 tr1 ∧
    setClockSegment 4 8 st1 = Ok tt st2 tr2 ∧
    leds st2 = leds st1.
Proof.
  split; [lia|]. split; [lia|]. split; [reflexivity|].
  apply (setClockSegment_idempotent 4 8 bootState); [lia|lia|reflexivity].
Defined.

(** C9. [setClockSegment position value] changes only pixels whose index
    lies in [[digitMap[position], digitMap[position+1])]: for every position
    0-5 and value 0-9, the buffer entry at any index outside that range is
    the same after the call as before, and the buffer keeps its size. *)
Theorem setClockSegment_frame segment time st :
  0 ≤ segment ≤ 5 → 0 ≤ time ≤ 9 → wf st →
  ∃ st' tr,
    setClockSegment segment time st = Ok tt st' tr ∧
    length (leds st') = length (leds st) ∧
    ∀ i : nat,
      Z.of_nat i < digitStart segment ∨ digitStart (segment + 1) ≤ Z.of_nat i →
      leds st' !! i = leds st !! i.
Proof.
  intros Hs Ht Hwf.
  rewrite setClockSegment_spec by assumption.
  eexists _, _. split; [reflexivity|]. cbn [leds set_leds]. split.
  - rewrite length_render by assumption. symmetry. exact Hwf.
  - intros i. rewrite !digitStart_35 by lia. intros Hi.
    apply render_lookup_out; (assumption || lia).
Qed.

Lemma setClockSegment_frame_witness :
  0 ≤ 3 ≤ 5 ∧ 0 ≤ 1 ≤ 9 ∧ wf bootState ∧
  ∃ st' tr,
    setClockSegment 3 1 bootState = Ok tt st' tr ∧
    length (leds st') = length (leds bootState) ∧
    ∀ i : nat,
      Z.of_nat i < digitStart 3 ∨ digitStart (3 + 1) ≤ Z.of_nat i →
      leds st' !! i = leds bootState !! i.
Proof.
  split; [lia|]. split; [lia|]. split; [reflexivity|].
  apply (setClockSegment_frame 3 1 bootState); [lia|lia|reflexivity].
Defined.

(** C3, as the code has it: every pixel write of [setClockSegment] is
    followed at once by a push to the strip, so drawing one digit (position
    0-5, value 0-9) pushes 35 times, and one tick pushes 70, 140 or 210 times,
    35 for each digit position it draws. *)
Theorem setClockSegment_pushes_per_pixel segment time hour minute second st :
  0 ≤ segment ≤ 5 → 0 ≤ time ≤ 9 →
  0 ≤ hour → 0 ≤ minute → 0 ≤ second → wf st →
  (∃ st' cs,
     setClockSegment segment time st
     = Ok tt st' (pixelEvents (digitStart segment) cs) ∧
     length cs = 35%nat ∧
     shows (pixelEvents (digitStart segment) cs) = 35%nat) ∧
  (∃ st' tr,
     setClockTime hour minute second st = Ok tt st' tr ∧
     shows tr = if decide (oldMinute st = minute) then 70%nat
                else if decide (oldHour st = hour) then 140%nat
                     else 210%nat).
Proof.
  intros Hs Ht Hh Hm Hsec Hwf. split.
  - rewrite setClockSegment_spec by assumption.
    exists (set_leds (render segment time (leds st)) st), (glyph 35 time 0).
    rewrite digitStart_35 by lia.
    split; [reflexivity|]. split; [apply length_glyph|].
    apply shows_segmentEvents.
  - now apply setClockTime_shows.
Qed.

Lemma setClockSegment_pushes_per_pixel_witness :
  0 ≤ 0 ≤ 5 ∧ 0 ≤ 0 ≤ 9 ∧ 0 ≤ 10 ∧ 0 ≤ 30 ∧ 0 ≤ 15 ∧ wf bootState ∧
  ((∃ st' cs,
      setClockSegment 0 0 bootState
      = Ok tt st' (pixelEvents (digitStart 0) cs) ∧
      length cs = 35%nat ∧
      shows (pixelEvents (digitStart 0) cs) = 35%nat) ∧
   (∃ st' tr,
      setClockTime 10 30 15 bootState = Ok tt st' tr ∧
      shows tr = if decide (oldMinute bootState = 30) then 70%nat
                 else if decide (oldHour bootState = 10) then 140%nat
                      else 210%nat)).
Proof.
  repeat (split; [lia|]). split; [reflexivity|].
  apply (setClockSegment_pushes_per_pixel 0 0 10 30 15 bootState);
    (lia || reflexivity).
Defined.

(** C3 as stated fails: drawing digit 0 at position 0 from the boot state
    pushes the buffer 35 times rather than never, and the tick 10:30:15 pushes
    it 210 times rather than once. *)
Lemma setClockSegment_pushes_counterexample :
  ∃ st1 tr1 st2 tr2,
    setClockSegment 0 0 bootState = Ok tt st1 tr1 ∧
    shows tr1 = 35%nat ∧ shows tr1 ≠ 0%nat ∧
    setClockTime 10 30 15 bootState = Ok tt st2 tr2 ∧
    shows tr2 = 210%nat ∧ shows tr2 ≠ 1%nat.
Proof.
  rewrite (setClockSegment_spec 0 0 bootState) by (lia || reflexivity).
  rewrite (setClockTime_full 10 30 15 bootState)
    by (lia || reflexivity || discriminate).
  eexists _, _, _, _. split; [reflexivity|].
  rewrite shows_segmentEvents. split; [reflexivity|]. split; [lia|].
  split; [reflexivity|].
  rewrite !shows_app, !shows_segmentEvents. cbn. split; [reflexivity|lia].
Qed.

(** C7, as the code has it: [setClockSegment] makes no check of the digit
    value.  For a position 0-5, a value in 0..9 keeps every table and buffer
    access in bounds and the call returns; a value outside 0..9 makes the
    first iteration read [numberMap[value][0]] outside the table, which is
    undefined behaviour, reached before any pixel is written. *)
Theorem setClockSegment_table_bounds segment time st :
  0 ≤ segment ≤ 5 → wf st →
  (0 ≤ time ≤ 9 → ∃ st' tr, setClockSegment segment time st = Ok tt st' tr) ∧
  (¬ 0 ≤ time ≤ 9 →
   setClockSegment segment time st = Undefined (NumberMapOob time 0) st []).
Proof.
  intros Hs Hwf. split.
  - intros Ht. rewrite setClockSegment_spec by assumption. now eexists _, _.
  - intros Ht. now apply setClockSegment_undefined.
Qed.

Lemma setClockSegment_table_bounds_witness :
  0 ≤ 5 ≤ 5 ∧ wf bootState ∧
  ((0 ≤ 9 ≤ 9 → ∃ st' tr, setClockSegment 5 9 bootState = Ok tt st' tr) ∧
   (¬ 0 ≤ 9 ≤ 9 →
    setClockSegment 5 9 bootState
    = Undefined (NumberMapOob 9 0) bootState [])).
Proof.
  split; [lia|]. split; [reflexivity|].
  apply (setClockSegment_table_bounds 5 9 bootState); [lia|reflexivity].
Defined.

(** C7 as stated fails: called with the value 10, [setClockSegment] raises
    no assertion; it reads [numberMap[10][0]], one row past the table. *)
Lemma setClockSegment_no_assertion_counterexample :
  setClockSegment 0 10 bootState
  = Undefined (NumberMapOob 10 0) bootState [].
Proof. apply setClockSegment_undefined; lia. Qed.

(** * The claims about [setClockTime] *)

Lemma redrawn_secondsEvents p second :
  0 ≤ p ≤ 5 → redrawn p (secondsEvents second) = bool_decide (p ≤ 1).
Proof.
  intros Hp. unfold secondsEvents.
  rewrite redrawn_app, !redrawn_segmentEvents by lia.
  assert (p = 0 ∨ p = 1 ∨ p = 2 ∨ p = 3 ∨ p = 4 ∨ p = 5) as Hp' by lia.
  destruct Hp' as [->|[->|[->|[->|[->| ->]]]]]; reflexivity.
Qed.

Lemma redrawn_minutesEvents p minute :
  0 ≤ p ≤ 5 → redrawn p (minutesEvents minute) = bool_decide (2 ≤ p ≤ 3).
Proof.
  intros Hp. unfold minutesEvents.
  rewrite redrawn_app, !redrawn_segmentEvents by lia.
  assert (p = 0 ∨ p = 1 ∨ p = 2 ∨ p = 3 ∨ p = 4 ∨ p = 5) as Hp' by lia.
  destruct Hp' as [->|[->|[->|[->|[->| ->]]]]]; reflexivity.
Qed.

Lemma redrawn_hoursEvents p hour :
  0 ≤ p ≤ 5 → redrawn p (hoursEvents hour) = bool_decide (4 ≤ p).
Proof.
  intros Hp. unfold hoursEvents.
  rewrite redrawn_app, !redrawn_segmentEvents by lia.
  assert (p = 0 ∨ p = 1 ∨ p = 2 ∨ p = 3 ∨ p = 4 ∨ p = 5) as Hp' by lia.
  destruct Hp' as [->|[->|[->|[->|[->| ->]]]]]; reflexivity.
Qed.

(** The three branches with their traces grouped by digit pair. *)
Lemma setClockTime_cases hour minute second st :
  wf st → 0 ≤ hour → 0 ≤ minute → 0 ≤ second →
  (oldMinute st = minute ∧
   setClockTime hour minute second st
   = Ok tt (set_leds (drawSeconds second (leds st)) st)
        (secondsEvents second ++ []))
  ∨ (oldMinute st ≠ minute ∧ oldHour st = hour ∧
     setClockTime hour minute second st
     = Ok tt
          (set_oldMinute (to_uint8 minute)
             (set_leds (drawMinutes minute (drawSeconds second (leds st))) st))
          ((secondsEvents second ++ [EvDelay 10] ++ minutesEvents minute)
           ++ [EvOldMinute (to_uint8 minute)]))
  ∨ (oldMinute st ≠ minute ∧ oldHour st ≠ hour ∧
     setClockTime hour minute second st
     = Ok tt
          (set_oldHour (to_uint8 hour)
             (set_oldMinute (to_uint8 minute)
                (set_leds (drawHours hour
                             (drawMinutes minute
                                (drawSeconds second (leds st)))) st)))
          ((secondsEvents second ++ [EvDelay 10] ++ minutesEvents minute
            ++ [EvDelay 10] ++ hoursEvents hour)
           ++ [EvOldMinute (to_uint8 minute); EvOldHour (to_uint8 hour)])).
Proof.
  intros Hwf Hh Hm Hs.
  destruct (decide (oldMinute st = minute)) as [Em|Em];
    [|destruct (decide (oldHour st = hour)) as [Eh|Eh]].
  - left. split; [assumption|].
    rewrite setClockTime_same_minute by assumption.
    now rewrite app_nil_r.
  - right; left. split; [assumption|]. split; [assumption|].
    rewrite setClockTime_same_hour by assumption.
    unfold secondsEvents, minutesEvents.
    f_equal; rewrite <- ?app_assoc; reflexivity.
  - right; right. split; [assumption|]. split; [assumption|].
    rewrite setClockTime_full by assumption.
    unfold secondsEvents, minutesEvents, hoursEvents.
    f_equal; rewrite <- ?app_assoc; reflexivity.
Qed.

Ltac redrawn_tac :=
  rewrite ?redrawn_app, ?redrawn_secondsEvents, ?redrawn_minutesEvents,
    ?redrawn_hoursEvents by lia;
  cbn [redrawn existsb inSegment orb].

(** C2, as the code has it: the three comparisons are nested, not
    independent.  On every tick the seconds pair (positions 0, 1) is redrawn;
    the minute pair (2, 3) is redrawn exactly when [minute] differs from
    [oldMinute]; the hour pair (4, 5) is redrawn exactly when [minute] differs
    from [oldMinute] and [hour] differs from [oldHour]. *)
Theorem setClockTime_redraw_cascade hour minute second st :
  wf st → 0 ≤ hour → 0 ≤ minute → 0 ≤ second →
  ∃ st' tr,
    setClockTime hour minute second st = Ok tt st' tr ∧
    redrawn 0 tr = true ∧ redrawn 1 tr = true ∧
    (redrawn 2 tr = true ↔ minute ≠ oldMinute st) ∧
    (redrawn 3 tr = true ↔ minute ≠ oldMinute st) ∧
    (redrawn 4 tr = true ↔ minute ≠ oldMinute st ∧ hour ≠ oldHour st) ∧
    (redrawn 5 tr = true ↔ minute ≠ oldMinute st ∧ hour ≠ oldHour st).
Proof.
  intros Hwf Hh Hm Hs.
  destruct (setClockTime_cases hour minute second st Hwf Hh Hm Hs)
    as [(Em & ->)|[(Em & Eh & ->)|(Em & Eh & ->)]];
    eexists _, _; (split; [reflexivity|]); redrawn_tac;
    repeat split; try reflexivity; try discriminate; intros;
    try congruence; intuition congruence.
Qed.

Lemma setClockTime_redraw_cascade_witness :
  wf staleState ∧ 0 ≤ 10 ∧ 0 ≤ 16 ∧ 0 ≤ 0 ∧
  ∃ st' tr,
    setClockTime 10 16 0 staleState = Ok tt st' tr ∧
    redrawn 0 tr = true ∧ redrawn 1 tr = true ∧
    (redrawn 2 tr = true ↔ 16 ≠ oldMinute staleState) ∧
    (redrawn 3 tr = true ↔ 16 ≠ oldMinute staleState) ∧
    (redrawn 4 tr = true
     ↔ 16 ≠ oldMinute staleState ∧ 10 ≠ oldHour staleState) ∧
    (redrawn 5 tr = true
     ↔ 16 ≠ oldMinute staleState ∧ 10 ≠ oldHour staleState).
Proof.
  split; [reflexivity|]. repeat (split; [lia|]).
  apply (setClockTime_redraw_cascade 10 16 0 staleState);
    [reflexivity|lia|lia|lia].
Defined.

(** C2 as stated fails: with the trackers at 10:15, the tick 11:15:07 has an
    hour that differs from [oldHour], yet the hour pair is not redrawn. *)
Lemma setClockTime_hour_pair_counterexample :
  ∃ st' tr,
    setClockTime 11 15 7 staleState = Ok tt st' tr ∧
    11 ≠ oldHour staleState ∧
    redrawn 4 tr = false ∧ redrawn 5 tr = false.
Proof.
  rewrite (setClockTime_same_minute 11 15 7 staleState)
    by (reflexivity || lia).
  eexists _, _. split; [reflexivity|]. split; [discriminate|].
  fold (secondsEvents 7).
  rewrite !redrawn_secondsEvents by lia. split; reflexivity.
Qed.

Lemma to_uint8_small v : 0 ≤ v ≤ 255 → to_uint8 v = v.
Proof. intros H. unfold to_uint8. apply Z.mod_small. lia. Qed.

Lemma no_tracker_secondsEvents second :
  filter isTracker (secondsEvents second) = [].
Proof.
  unfold secondsEvents. now rewrite filter_app, !no_tracker_segmentEvents.
Qed.

Lemma no_tracker_minutesEvents minute :
  filter isTracker (minutesEvents minute) = [].
Proof.
  unfold minutesEvents. now rewrite filter_app, !no_tracker_segmentEvents.
Qed.

Lemma no_tracker_hoursEvents hour :
  filter isTracker (hoursEvents hour) = [].
Proof.
  unfold hoursEvents. now rewrite filter_app, !no_tracker_segmentEvents.
Qed.

(** What a tick leaves in the trackers, and where in its trace it assigns
    them. *)
Lemma setClockTime_effect hour minute second st :
  wf st → 0 ≤ hour ≤ 255 → 0 ≤ minute ≤ 255 → 0 ≤ second →
  ∃ st' drawn updates,
    setClockTime hour minute second st = Ok tt st' (drawn ++ updates) ∧
    wf st' ∧
    oldMinute st' = minute ∧
    oldHour st' = (if decide (oldMinute st = minute) then oldHour st else hour) ∧
    filter isTracker drawn = [] ∧
    updates = (if decide (oldMinute st = minute) then []
               else if decide (oldHour st = hour) then [EvOldMinute minute]
                    else [EvOldMinute minute; EvOldHour hour]).
Proof.
  intros Hwf Hh Hm Hs.
  destruct (setClockTime_cases hour minute second st Hwf ltac:(lia) ltac:(lia)
              Hs) as [(Em & ->)|[(Em & Eh & ->)|(Em & Eh & ->)]];
    rewrite ?(to_uint8_small minute), ?(to_uint8_small hour) by assumption;
    eexists _, _, _; (split; [reflexivity|]);
    (split; [unfold wf in *; cbn [leds set_leds set_oldMinute set_oldHour];
             repeat first [apply wf_drawHours | apply wf_drawMinutes
                          | apply wf_drawSeconds]; lia || assumption|]);
    cbn [oldMinute oldHour set_leds set_oldMinute set_oldHour];
    repeat first [rewrite decide_True by assumption
                 | rewrite decide_False by assumption];
    rewrite ?filter_app, ?no_tracker_secondsEvents, ?no_tracker_minutesEvents,
      ?no_tracker_hoursEvents;
    repeat split; try reflexivity; try assumption.
Qed.

(** C4, as the code has it: after a tick (hour and minute within [uint8_t])
    [oldMinute] equals [minute]; [oldHour] equals [hour] unless the minute was
    unchanged, in which case the hour tracker is left as it was.  A tracker is
    assigned at most once in a tick, and only after every pixel write of the
    tick. *)
Theorem setClockTime_trackers hour minute second st :
  wf st → 0 ≤ hour ≤ 255 → 0 ≤ minute ≤ 255 → 0 ≤ second →
  ∃ st' drawn updates,
    setClockTime hour minute second st = Ok tt st' (drawn ++ updates) ∧
    oldMinute st' = minute ∧
    oldHour st' = (if decide (oldMinute st = minute) then oldHour st else hour) ∧
    filter isTracker drawn = [] ∧
    updates = (if decide (oldMinute st = minute) then []
               else if decide (oldHour st = hour) then [EvOldMinute minute]
                    else [EvOldMinute minute; EvOldHour hour]).
Proof.
  intros Hwf Hh Hm Hs.
  destruct (setClockTime_effect hour minute second st Hwf Hh Hm Hs)
    as (st' & drawn & updates & E & _ & Hrest).
  now exists st', drawn, updates.
Qed.

Lemma setClockTime_trackers_witness :
  wf bootState ∧ 0 ≤ 23 ≤ 255 ∧ 0 ≤ 59 ≤ 255 ∧ 0 ≤ 9 ∧
  ∃ st' drawn updates,
    setClockTime 23 59 9 bootState = Ok tt st' (drawn ++ updates) ∧
    oldMinute st' = 59 ∧
    oldHour st'
    = (if decide (oldMinute bootState = 59) then oldHour bootState else 23) ∧
    filter isTracker drawn = [] ∧
    updates = (if decide (oldMinute bootState = 59) then []
               else if decide (oldHour bootState = 23) then [EvOldMinute 59]
                    else [EvOldMinute 59; EvOldHour 23]).
Proof.
  split; [reflexivity|]. repeat (split; [lia|]).
  apply (setClockTime_trackers 23 59 9 bootState); [reflexivity|lia|lia|lia].
Defined.

(** C4 as stated fails: with the trackers at 10:15, after the tick 11:15:07
    [oldHour] is still 10, not the hour 11 just passed. *)
Lemma setClockTime_oldHour_counterexample :
  ∃ st' tr,
    setClockTime 11 15 7 staleState = Ok tt st' tr ∧
    oldHour st' = 10 ∧ oldHour st' ≠ 11.
Proof.
  rewrite (setClockTime_same_minute 11 15 7 staleState)
    by (reflexivity || lia).
  eexists _, _. split; [reflexivity|]. split; [reflexivity|discriminate].
Qed.

(** ** The digits drawn *)

(** On values an [int] holds without sign, the sketch's two digit
    expressions are the ordinary base-10 split. *)
Lemma digits_split x :
  0 ≤ x < 2 ^ 31 →
  unitsDigit x = x mod 10 ∧ tensDigit x = (x / 10) mod 10.
Proof.
  intros H. unfold unitsDigit, tensDigit, to_unsigned. split.
  - apply Z.rem_mod_nonneg; lia.
  - rewrite (Z.mod_small x) by lia. reflexivity.
Qed.

Ltac lookup_tac Hl :=
  unfold drawHours, drawMinutes, drawSeconds;
  repeat first
    [ rewrite render_lookup_out
        by first [ lia | repeat apply length_render; lia || exact Hl ]
    | rewrite render_lookup_in
        by first [ lia | repeat apply length_render; lia || exact Hl ] ].

(** In the sketch proper, every digit position a tick redraws shows the
    glyph of the digit the base-10 split assigns to it. *)
Lemma setClockTime_digits hour minute second st :
  wf st → 0 ≤ hour ≤ 23 → 0 ≤ minute ≤ 59 → 0 ≤ second ≤ 59 →
  ∃ st' tr,
    setClockTime hour minute second st = Ok tt st' tr ∧
    ∀ p off, 0 ≤ p ≤ 5 → 0 ≤ off < 35 → redrawn p tr = true →
      leds st' !! Z.to_nat (35 * p + off)
      = Some (glyphColor (nth (Z.to_nat p) (decompose hour minute second) 0)
                off).
Proof.
  intros Hwf Hh Hm Hs.
  destruct (digits_split hour ltac:(lia)) as [Hhu Hht].
  destruct (digits_split minute ltac:(lia)) as [Hmu Hmt].
  destruct (digits_split second ltac:(lia)) as [Hsu Hst].
  destruct (setClockTime_cases hour minute second st Hwf ltac:(lia) ltac:(lia)
              ltac:(lia)) as [(Em & ->)|[(Em & Eh & ->)|(Em & Eh & ->)]];
    eexists _, _; (split; [reflexivity|]); intros p off Hp Ho;
    redrawn_tac; cbn [leds set_leds set_oldMinute set_oldHour];
    assert (p = 0 ∨ p = 1 ∨ p = 2 ∨ p = 3 ∨ p = 4 ∨ p = 5) as Hp' by lia;
    destruct Hp' as [->|[->|[->|[->|[->| ->]]]]];
    intros Hr; try discriminate Hr;
    lookup_tac Hwf;
    repeat match goal with
      | |- context [Z.to_nat ?z] =>
          let v := eval vm_compute in (Z.to_nat z) in
          change (Z.to_nat z) with v
      end;
    cbn [decompose nth]; congruence.
Qed.

(** The digits of 23:59:09 as the sketch proper computes them. *)
Example digits_23_59_9 :
  [ unitsDigit 9; tensDigit 9; unitsDigit 59; tensDigit 59;
    unitsDigit 23; tensDigit 23 ] = decompose 23 59 9
  ∧ decompose 23 59 9 = [9; 0; 9; 5; 3; 2].
Proof. split; reflexivity. Qed.

(** When both comparisons fail, all six positions are redrawn and show the
    time. *)
Lemma setClockTime_full_digits hour minute second st :
  wf st → 0 ≤ hour ≤ 23 → 0 ≤ minute ≤ 59 → 0 ≤ second ≤ 59 →
  oldMinute st ≠ minute → oldHour st ≠ hour →
  ∃ st' tr,
    setClockTime hour minute second st = Ok tt st' tr ∧
    (∀ p, 0 ≤ p ≤ 5 → redrawn p tr = true) ∧
    (∀ p off, 0 ≤ p ≤ 5 → 0 ≤ off < 35 →
       leds st' !! Z.to_nat (35 * p + off)
       = Some (glyphColor (nth (Z.to_nat p) (decompose hour minute second) 0)
                 off)).
Proof.
  intros Hwf Hh Hm Hs Em Eh.
  destruct (setClockTime_digits hour minute second st Hwf Hh Hm Hs)
    as (st' & tr & E & Hd).
  assert (∀ p, 0 ≤ p ≤ 5 → redrawn p tr = true) as Hall.
  { destruct (setClockTime_cases hour minute second st Hwf ltac:(lia)
                ltac:(lia) ltac:(lia))
      as [(Em' & _)|[(_ & Eh' & _)|(_ & _ & E2)]]; [congruence|congruence|].
    rewrite E in E2. injection E2 as _ ->. intros p Hp. redrawn_tac.
    assert (p = 0 ∨ p = 1 ∨ p = 2 ∨ p = 3 ∨ p = 4 ∨ p = 5) as Hp' by lia.
    destruct Hp' as [->|[->|[->|[->|[->| ->]]]]]; reflexivity. }
  exists st', tr. split; [assumption|]. split; [assumption|].
  intros p off Hp Ho. apply Hd; auto.
Qed.

(** ** Start-up *)

Lemma write_show i c st :
  0 ≤ i < NUM_LEDS →
  (writeLed i c ;; show) st
  = Ok tt (set_leds (<[Z.to_nat i := c]> (leds st)) st) [EvPixel i c; EvShow].
Proof.
  intros H. now rewrite (bind_Ok _ _ _ _ _ _ (writeLed_ok i c st H)).
Qed.

Lemma fillLoop_Black n : ∀ speed i st,
  0 ≤ i → i + Z.of_nat n ≤ NUM_LEDS → wf st →
  ∃ tr,
    fillLoop n Black speed i st
    = Ok tt
         (set_leds (take (Z.to_nat i) (leds st) ++ replicate n black
                    ++ drop (Z.to_nat i + n) (leds st)) st)
         tr.
Proof.
  induction n as [|n IH]; intros speed i st Hi Hn Hwf.
  - exists []. cbn. unfold ret.
    rewrite Nat.add_0_r, take_drop. now rewrite set_leds_id.
  - cbn [fillLoop]. change (CRGB_eqb Black White) with false. cbv iota.
    rewrite (bind_Ok _ _ _ _ _ _ (write_show i _ st ltac:(lia))).
    match goal with
    | |- context [bind (delay ?ms) ?k ?s] =>
        rewrite (bind_Ok _ k s tt s [EvDelay ms] eq_refl)
    end.
    assert (Z.to_nat i < length (leds st))%nat as Hil.
    { unfold wf in Hwf. rewrite Hwf. lia. }
    destruct (IH speed (i + 1)
                (set_leds (<[Z.to_nat i := CRGBW_of_CRGB Black]> (leds st)) st)
                ltac:(lia) ltac:(lia)) as [tr E].
    { unfold wf in *. cbn [leds set_leds]. now rewrite length_insert. }
    rewrite E. eexists. f_equal.
    cbn [leds set_leds replicate].
    replace (Z.to_nat (i + 1)) with (S (Z.to_nat i)) by lia.
    now rewrite window_step by assumption.
Qed.

Lemma colorFill_Black speed st :
  wf st →
  ∃ tr,
    colorFill Black speed st
    = Ok tt (set_leds (replicate (Z.to_nat NUM_LEDS) black) st) tr.
Proof.
  intros Hwf. unfold colorFill.
  destruct (fillLoop_Black (Z.to_nat NUM_LEDS) speed 0 st ltac:(lia)
              ltac:(unfold NUM_LEDS; lia) Hwf) as [tr E].
  exists tr. rewrite E. do 2 f_equal.
  rewrite drop_ge by (unfold wf in Hwf; rewrite Hwf; lia).
  now rewrite app_nil_r.
Qed.

(** One step of the test pattern: a pause, a tick with all three arguments
    [v], and the rest of the pattern. *)
Lemma test_step (P : State → Prop) v (k : unit → M unit) st :
  wf st → 0 ≤ v ≤ 255 →
  (∀ st1, wf st1 → oldMinute st1 = v →
          (oldMinute st ≠ v → oldHour st1 = v) →
          ∃ st' tr, k tt st1 = Ok tt st' tr ∧ P st') →
  ∃ st' tr,
    (delay 100 ;; bind (setClockTime v v v) k) st = Ok tt st' tr ∧ P st'.
Proof.
  intros Hwf Hv Hk.
  rewrite (bind_Ok _ _ st tt st [EvDelay 100] eq_refl).
  destruct (setClockTime_effect v v v st Hwf Hv Hv ltac:(lia))
    as (st1 & drawn & updates & E & Hwf1 & Hm1 & Hh1 & _ & _).
  rewrite (bind_Ok _ _ _ _ _ _ E).
  destruct (Hk st1 Hwf1 Hm1) as (st' & tr & E' & HP).
  { intros Hne. now rewrite decide_False in Hh1 by assumption. }
  rewrite E'. now eexists _, _.
Qed.

(** After the start-up test the trackers hold 99 and the buffer is black. *)
Lemma pixelTest_effect st :
  wf st →
  ∃ st' tr,
    pixelTest st = Ok tt st' tr ∧
    (wf st' ∧ oldHour st' = 99 ∧ oldMinute st' = 99
     ∧ leds st' = replicate (Z.to_nat NUM_LEDS) black).
Proof.
  intros Hwf. unfold pixelTest.
  do 8 (apply test_step; [assumption|lia|]; intros ? ? _ _).
  apply test_step; [assumption|lia|]. intros st9 Hwf9 Hm _.
  apply test_step; [assumption|lia|]. intros st10 Hwf10 Hm10 Hh10.
  rewrite (bind_Ok _ _ st10 tt st10 [EvDelay 100] eq_refl).
  destruct (colorFill_Black 1 st10 Hwf10) as [tr E]. rewrite E.
  eexists _, _. split; [reflexivity|]. cbn [leds set_leds oldHour oldMinute].
  split; [apply length_replicate|].
  split; [apply Hh10; rewrite Hm; discriminate|].
  split; [assumption|reflexivity].
Qed.

(** * The claim about start-up *)

(** C10. After the start-up pixel test the trackers hold [oldHour = 99] and
    [oldMinute = 99] and every pixel is black; so the first tick with a real
    time (hour at most 23, minute at most 59) takes the full-redraw branch:
    all six digit positions are redrawn and show the digits of that time, and
    no blanked digit stays stale. *)
Theorem pixelTest_forces_full_redraw st :
  wf st →
  ∃ st0 tr0,
    pixelTest st = Ok tt st0 tr0 ∧
    oldHour st0 = 99 ∧ oldMinute st0 = 99 ∧
    leds st0 = replicate (Z.to_nat NUM_LEDS) (mkCRGBW 0 0 0 0) ∧
    ∀ hour minute second,
      0 ≤ hour ≤ 23 → 0 ≤ minute ≤ 59 → 0 ≤ second ≤ 59 →
      ∃ st' tr,
        setClockTime hour minute second st0 = Ok tt st' tr ∧
        (∀ p, 0 ≤ p ≤ 5 → redrawn p tr = true) ∧
        (∀ p off, 0 ≤ p ≤ 5 → 0 ≤ off < 35 →
           leds st' !! Z.to_nat (digitStart p + off)
           = Some (glyphColor
                     (nth (Z.to_nat p) (decompose hour minute second) 0)
                     off)).
Proof.
  intros Hwf.
  destruct (pixelTest_effect st Hwf) as (st0 & tr0 & E & Hwf0 & Hh0 & Hm0 & Hl).
  exists st0, tr0. repeat (split; [assumption|]).
  intros hour minute second Hh Hm Hs.
  destruct (setClockTime_full_digits hour minute second st0 Hwf0 Hh Hm Hs
              ltac:(lia) ltac:(lia)) as (st' & tr & E' & Hall & Hd).
  exists st', tr. repeat (split; [assumption|]).
  intros p off Hp Ho. rewrite digitStart_35 by lia. now apply Hd.
Qed.

Lemma pixelTest_forces_full_redraw_witness :
  wf bootState ∧
  ∃ st0 tr0,
    pixelTest bootState = Ok tt st0 tr0 ∧
    oldHour st0 = 99 ∧ oldMinute st0 = 99 ∧
    leds st0 = replicate (Z.to_nat NUM_LEDS) (mkCRGBW 0 0 0 0) ∧
    ∀ hour minute second,
      0 ≤ hour ≤ 23 → 0 ≤ minute ≤ 59 → 0 ≤ second ≤ 59 →
      ∃ st' tr,
        setClockTime hour minute second st0 = Ok tt st' tr ∧
        (∀ p, 0 ≤ p ≤ 5 → redrawn p tr = true) ∧
        (∀ p off, 0 ≤ p ≤ 5 → 0 ≤ off < 35 →
           leds st' !! Z.to_nat (digitStart p + off)
           = Some (glyphColor
                     (nth (Z.to_nat p) (decompose hour minute second) 0)
                     off)).
Proof.
  split; [reflexivity|].
  apply (pixelTest_forces_full_redraw bootState). reflexivity.
Defined.

(** * The claim about the digits, on the RTC draft *)

(** The draft computes all six digits from [second]. *)
Lemma draft_setClockTime_calls hour minute second :
  Draft.setClockTime Draft.recordSegment hour minute second []
  = [ (0, unitsDigit second); (1, tensDigit second);
      (2, unitsDigit second); (3, tensDigit second);
      (4, unitsDigit second); (5, tensDigit second) ].
Proof. reflexivity. Qed.

(** C5 on the RTC draft: [setClockTime(23, 59, 9)] asks for the digits
    9, 0, 9, 0, 9, 0 at positions 0 to 5, where the base-10 split of
    23:59:09 is 9, 0, 9, 5, 3, 2; the minute and hour positions get the
    digits of the second. *)
Theorem draft_setClockTime_23_59_9 :
  Draft.setClockTime Draft.recordSegment 23 59 9 []
  = [(0, 9); (1, 0); (2, 9); (3, 0); (4, 9); (5, 0)]
  ∧ decompose 23 59 9 = [9; 0; 9; 5; 3; 2].
Proof. split; reflexivity. Qed.

(** * The claim about the remote control *)

Lemma callback_Brightness toInt payload length stray st :
  callback toInt "LEDClock/Brightness" payload length stray st
  = Ok tt
       (set_driverBrightness (to_uint8 (toInt (bufferString payload length stray)))
          (set_oldBrightness (to_uint8 (toInt (bufferString payload length stray)))
             (set_brightness (to_uint8 (toInt (bufferString payload length stray)))
                st)))
       [EvSetBrightness (to_uint8 (toInt (bufferString payload length stray)));
        EvShow].
Proof. reflexivity. Qed.

Lemma callback_State_on toInt payload length stray st :
  bufferString payload length stray = "true"%string →
  callback toInt "LEDClock/State" payload length stray st
  = Ok tt
       (set_masterState true
          (set_driverBrightness (oldBrightness st)
             (set_brightness (oldBrightness st) st)))
       [EvSetBrightness (oldBrightness st); EvShow].
Proof. intros E. unfold callback. cbv zeta. rewrite E. reflexivity. Qed.

Lemma callback_State_off toInt payload length stray st :
  bufferString payload length stray ≠ "true"%string →
  callback toInt "LEDClock/State" payload length stray st
  = Ok tt
       (set_masterState false
          (set_driverBrightness 0
             (set_brightness 0 (set_oldBrightness (brightness st) st))))
       [EvSetBrightness 0; EvShow].
Proof.
  intros Hne. unfold callback. cbv zeta.
  change (String.eqb "LEDClock/State" "LEDClock/Brightness") with false.
  change (String.eqb "LEDClock/State" "LEDClock/State") with true.
  cbv iota. rewrite (proj2 (String.eqb_neq _ _) Hne). reflexivity.
Qed.

(** What the String holds for the 4-byte payload [true]: the four letters
    and then whatever follows the buffer. *)
Lemma bufferString_true stray :
  bufferString "true" 4 stray = String.append "true" (cString stray).
Proof. reflexivity. Qed.

(** The payload [true] is read as "true" exactly when the byte behind the
    buffer is a NUL. *)
Lemma bufferString_true_iff stray :
  bufferString "true" 4 stray = "true"%string ↔ cString stray = ""%string.
Proof.
  rewrite bufferString_true. split.
  - intros E. cbn in E. now injection E.
  - intros ->. reflexivity.
Qed.

(** When every String is read as it was sent, the handlers do restore the
    brightness: set, off, on ends at the brightness that was set. *)
Lemma callback_restores_when_read toInt payload length stray
    off lengthOff strayOff on lengthOn strayOn st :
  bufferString off lengthOff strayOff ≠ "true"%string →
  bufferString on lengthOn strayOn = "true"%string →
  ∃ st1 tr1 st2 tr2 st3 tr3,
    callback toInt "LEDClock/Brightness" payload length stray st = Ok tt st1 tr1 ∧
    brightness st1 = to_uint8 (toInt (bufferString payload length stray)) ∧
    driverBrightness st1 = to_uint8 (toInt (bufferString payload length stray)) ∧
    callback toInt "LEDClock/State" off lengthOff strayOff st1 = Ok tt st2 tr2 ∧
    brightness st2 = 0 ∧ driverBrightness st2 = 0 ∧
    masterState st2 = false ∧
    callback toInt "LEDClock/State" on lengthOn strayOn st2 = Ok tt st3 tr3 ∧
    brightness st3 = to_uint8 (toInt (bufferString payload length stray)) ∧
    driverBrightness st3 = to_uint8 (toInt (bufferString payload length stray)) ∧
    masterState st3 = true.
Proof.
  intros Hoff Hon.
  eexists _, _, _, _, _, _.
  split; [apply callback_Brightness|]. do 2 (split; [reflexivity|]).
  split; [now apply callback_State_off|]. do 3 (split; [reflexivity|]).
  split; [now apply callback_State_on|]. repeat split.
Qed.

(** With a NUL behind the buffer at each call, [200], [false], [true] ends
    switched on at brightness 200. *)
Example callback_restores_terminated :
  ∃ st1 tr1 st2 tr2 st3 tr3,
    callback decimalToInt "LEDClock/Brightness" "200" 3 "" bootState
    = Ok tt st1 tr1 ∧
    callback decimalToInt "LEDClock/State" "false" 5 "" st1 = Ok tt st2 tr2 ∧
    callback decimalToInt "LEDClock/State" "true" 4 "" st2 = Ok tt st3 tr3 ∧
    brightness st3 = 200 ∧ driverBrightness st3 = 200 ∧
    masterState st3 = true.
Proof. eexists _, _, _, _, _, _. repeat split. Qed.

(** C6 on the code.  The State handler compares the String built from an
    unterminated buffer with "true".  After a brightness has been set and
    the clock turned off, the 4-byte on message [true], received with one
    byte [x] behind the buffer, is read as "truex": the off branch runs
    again, the saved brightness is overwritten with 0, and the clock stays
    off at brightness 0 instead of returning to the brightness set. *)
Theorem callback_on_message_unterminated toInt stray1 stray2 st :
  ∃ st1 tr1 st2 tr2 st3 tr3,
    callback toInt "LEDClock/Brightness" "200" 3 stray1 st = Ok tt st1 tr1 ∧
    brightness st1 = to_uint8 (toInt (bufferString "200" 3 stray1)) ∧
    oldBrightness st1 = to_uint8 (toInt (bufferString "200" 3 stray1)) ∧
    callback toInt "LEDClock/State" "false" 5 stray2 st1 = Ok tt st2 tr2 ∧
    brightness st2 = 0 ∧ masterState st2 = false ∧
    oldBrightness st2 = to_uint8 (toInt (bufferString "200" 3 stray1)) ∧
    bufferString "true" 4 "x" = "truex"%string ∧
    callback toInt "LEDClock/State" "true" 4 "x" st2 = Ok tt st3 tr3 ∧
    masterState st3 = false ∧
    brightness st3 = 0 ∧ driverBrightness st3 = 0 ∧ oldBrightness st3 = 0.
Proof.
  assert (bufferString "false" 5 stray2 ≠ "true"%string) as Hoff
    by (intros E; discriminate E).
  assert (bufferString "true" 4 "x" ≠ "true"%string) as Hon
    by (intros E; discriminate E).
  eexists _, _, _, _, _, _.
  split; [apply callback_Brightness|]. do 2 (split; [reflexivity|]).
  split; [now apply callback_State_off|]. do 3 (split; [reflexivity|]).
  split; [reflexivity|].
  split; [now apply callback_State_off|]. repeat split.
Qed.

Example decimalToInt_200 : to_uint8 (decimalToInt "200") = 200.
Proof. reflexivity. Qed.

(** * Further properties of [setClockSegment] *)

Lemma digitMap_at_undefined i st :
  ¬ 0 ≤ i ≤ 6 → digitMap_at i st = Undefined (DigitMapOob i) st [].
Proof.
  intros H. unfold digitMap_at.
  replace ((0 <=? i) && (i <? 7)) with false; [reflexivity|].
  symmetry. apply andb_false_iff. lia.
Qed.

(** A digit position outside 0..5 makes [setClockSegment] index [digitMap]
    outside its seven entries before it writes any pixel: at [segment]
    itself, or at [segment + 1] when [segment] is 6. *)
Theorem setClockSegment_position_undefined segment time st :
  ¬ 0 ≤ segment ≤ 5 →
  setClockSegment segment time st
  = Undefined (DigitMapOob (if decide (segment = 6) then 7 else segment)) st [].
Proof.
  intros Hs. unfold setClockSegment.
  destruct (decide (segment = 6)) as [->|Hne].
  - rewrite (bind_Ok _ _ _ _ _ _ (digitMap_at_ok 6 st ltac:(lia))).
    now rewrite (bind_Undefined _ _ _ _ _ _
                   (digitMap_at_undefined (6 + 1) st ltac:(lia))).
  - now rewrite (bind_Undefined _ _ _ _ _ _
                   (digitMap_at_undefined segment st ltac:(lia))).
Qed.

Lemma setClockSegment_position_undefined_witness :
  ¬ 0 ≤ 6 ≤ 5 ∧
  setClockSegment 6 3 bootState
  = Undefined (DigitMapOob (if decide (6 = 6) then 7 else 6)) bootState [].
Proof.
  split; [lia|].
  apply (setClockSegment_position_undefined 6 3 bootState). lia.
Defined.

Lemma render_lookup_in_nat segment time l (i : nat) :
  0 ≤ segment ≤ 5 → length l = Z.to_nat NUM_LEDS →
  35 * segment ≤ Z.of_nat i < 35 * segment + 35 →
  render segment time l !! i
  = Some (glyphColor time (Z.of_nat i - 35 * segment)).
Proof.
  intros Hs Hl Hi.
  rewrite <- (render_lookup_in segment time l (Z.of_nat i - 35 * segment))
    by (assumption || lia).
  f_equal. lia.
Qed.

Lemma render_overwrite segment time1 time2 l :
  0 ≤ segment ≤ 5 → length l = Z.to_nat NUM_LEDS →
  render segment time2 (render segment time1 l) = render segment time2 l.
Proof.
  intros Hs Hl. rewrite !render_unfold by assumption.
  assert (length (take (Z.to_nat (35 * segment)) l) = Z.to_nat (35 * segment))
    as Ht by (rewrite length_take, Hl; unfold NUM_LEDS; lia).
  f_equal; [|f_equal].
  - now rewrite take_app_length'.
  - rewrite drop_app_ge by (rewrite Ht; lia). rewrite Ht.
    rewrite drop_app_ge by (rewrite length_glyph; lia).
    rewrite length_glyph, drop_drop. f_equal. lia.
Qed.

Lemma render_comm p q time1 time2 l :
  0 ≤ p ≤ 5 → 0 ≤ q ≤ 5 → p ≠ q → length l = Z.to_nat NUM_LEDS →
  render p time1 (render q time2 l) = render q time2 (render p time1 l).
Proof.
  intros Hp Hq Hne Hl. apply list_eq. intros i.
  destruct (decide (35 * p ≤ Z.of_nat i < 35 * p + 35)) as [Hip|Hip];
    [|destruct (decide (35 * q ≤ Z.of_nat i < 35 * q + 35)) as [Hiq|Hiq]].
  - rewrite render_lookup_in_nat by (lia || now apply length_render).
    rewrite (render_lookup_out q) by (lia || now apply length_render).
    now rewrite render_lookup_in_nat by (lia || assumption).
  - rewrite (render_lookup_out p) by (lia || now apply length_render).
    rewrite !render_lookup_in_nat by (lia || assumption || now apply length_render).
    reflexivity.
  - rewrite (render_lookup_out p) by (lia || now apply length_render).
    rewrite !(render_lookup_out q) by (lia || assumption || now apply length_render).
    now rewrite (render_lookup_out p) by (lia || assumption).
Qed.

(** Drawing a digit over another at the same position leaves the buffer as
    if only the second digit had been drawn: nothing of the first glyph
    survives. *)
Theorem setClockSegment_overwrites segment time1 time2 st :
  0 ≤ segment ≤ 5 → 0 ≤ time1 ≤ 9 → 0 ≤ time2 ≤ 9 → wf st →
  ∃ st1 tr1 st2 tr2 st3 tr3,
    setClockSegment segment time1 st = Ok tt st1 tr1 ∧
    setClockSegment segment time2 st1 = Ok tt st2 tr2 ∧
    setClockSegment segment time2 st = Ok tt st3 tr3 ∧
    st2 = st3.
Proof.
  intros Hs H1 H2 Hwf.
  rewrite !setClockSegment_spec by assumption.
  eexists _, _, _, _, _, _. split; [reflexivity|].
  rewrite setClockSegment_spec
    by (assumption || (apply wf_set_leds, length_render; assumption)).
  split; [reflexivity|]. split; [reflexivity|].
  cbn [leds set_leds]. unfold set_leds. cbn [leds brightness oldBrightness
    oldHour oldMinute masterState driverBrightness].
  now rewrite render_overwrite by assumption.
Qed.

Lemma setClockSegment_overwrites_witness :
  0 ≤ 1 ≤ 5 ∧ 0 ≤ 8 ≤ 9 ∧ 0 ≤ 1 ≤ 9 ∧ wf bootState ∧
  ∃ st1 tr1 st2 tr2 st3 tr3,
    setClockSegment 1 8 bootState = Ok tt st1 tr1 ∧
    setClockSegment 1 1 st1 = Ok tt st2 tr2 ∧
    setClockSegment 1 1 bootState = Ok tt st3 tr3 ∧
    st2 = st3.
Proof.
  repeat (split; [lia|]). split; [reflexivity|].
  apply (setClockSegment_overwrites 1 8 1 bootState); (lia || reflexivity).
Defined.

(** Drawing two different digit positions gives the same buffer in either
    order. *)
Theorem setClockSegment_commutes p q time1 time2 st :
  0 ≤ p ≤ 5 → 0 ≤ q ≤ 5 → p ≠ q →
  0 ≤ time1 ≤ 9 → 0 ≤ time2 ≤ 9 → wf st →
  ∃ st1 tr1 st2 tr2,
    (setClockSegment p time1 ;; setClockSegment q time2) st = Ok tt st1 tr1 ∧
    (setClockSegment q time2 ;; setClockSegment p time1) st = Ok tt st2 tr2 ∧
    st1 = st2.
Proof.
  intros Hp Hq Hne H1 H2 Hwf.
  rewrite (bind_Ok _ _ _ _ _ _ (setClockSegment_spec p time1 st Hp H1 Hwf)).
  rewrite (bind_Ok _ _ _ _ _ _ (setClockSegment_spec q time2 st Hq H2 Hwf)).
  rewrite !setClockSegment_spec
    by (assumption || (apply wf_set_leds, length_render; assumption)).
  eexists _, _, _, _. split; [reflexivity|]. split; [reflexivity|].
  unfold set_leds. cbn [leds brightness oldBrightness oldHour oldMinute
    masterState driverBrightness].
  now rewrite (render_comm p q) by assumption.
Qed.

Lemma setClockSegment_commutes_witness :
  0 ≤ 0 ≤ 5 ∧ 0 ≤ 5 ≤ 5 ∧ 0 ≠ 5 ∧ 0 ≤ 4 ≤ 9 ∧ 0 ≤ 2 ≤ 9 ∧ wf bootState ∧
  ∃ st1 tr1 st2 tr2,
    (setClockSegment 0 4 ;; setClockSegment 5 2) bootState = Ok tt st1 tr1 ∧
    (setClockSegment 5 2 ;; setClockSegment 0 4) bootState = Ok tt st2 tr2 ∧
    st1 = st2.
Proof.
  repeat (split; [lia|]). split; [reflexivity|].
  apply (setClockSegment_commutes 0 5 4 2 bootState); (lia || reflexivity).
Defined.

Lemma glyph_distinct time1 time2 :
  0 ≤ time1 ≤ 9 → 0 ≤ time2 ≤ 9 → time1 ≠ time2 →
  glyph 35 time1 0 ≠ glyph 35 time2 0.
Proof.
  intros H1 H2 Hne.
  assert (time1 = 0 ∨ time1 = 1 ∨ time1 = 2 ∨ time1 = 3 ∨ time1 = 4
          ∨ time1 = 5 ∨ time1 = 6 ∨ time1 = 7 ∨ time1 = 8 ∨ time1 = 9)
    as Hc1 by lia.
  assert (time2 = 0 ∨ time2 = 1 ∨ time2 = 2 ∨ time2 = 3 ∨ time2 = 4
          ∨ time2 = 5 ∨ time2 = 6 ∨ time2 = 7 ∨ time2 = 8 ∨ time2 = 9)
    as Hc2 by lia.
  destruct Hc1 as [->|[->|[->|[->|[->|[->|[->|[->|[->| ->]]]]]]]]];
    destruct Hc2 as [->|[->|[->|[->|[->|[->|[->|[->|[->| ->]]]]]]]]];
    try congruence; vm_compute; discriminate.
Qed.

(** The glyph table tells the ten digits apart: drawn at the same position
    of the same buffer, two different digits never give the same buffer. *)
Theorem setClockSegment_digits_distinct segment time1 time2 st :
  0 ≤ segment ≤ 5 → 0 ≤ time1 ≤ 9 → 0 ≤ time2 ≤ 9 → time1 ≠ time2 →
  wf st →
  ∃ st1 tr1 st2 tr2,
    setClockSegment segment time1 st = Ok tt st1 tr1 ∧
    setClockSegment segment time2 st = Ok tt st2 tr2 ∧
    leds st1 ≠ leds st2.
Proof.
  intros Hs H1 H2 Hne Hwf.
  rewrite !setClockSegment_spec by assumption.
  eexists _, _, _, _. split; [reflexivity|]. split; [reflexivity|].
  cbn [leds set_leds]. rewrite !render_unfold by assumption.
  intros E. apply app_inv_head in E.
  apply app_inj_1 in E as [E _]; [|now rewrite !length_glyph].
  now apply (glyph_distinct time1 time2).
Qed.

Lemma setClockSegment_digits_distinct_witness :
  0 ≤ 2 ≤ 5 ∧ 0 ≤ 8 ≤ 9 ∧ 0 ≤ 9 ≤ 9 ∧ 8 ≠ 9 ∧ wf bootState ∧
  ∃ st1 tr1 st2 tr2,
    setClockSegment 2 8 bootState = Ok tt st1 tr1 ∧
    setClockSegment 2 9 bootState = Ok tt st2 tr2 ∧
    leds st1 ≠ leds st2.
Proof.
  repeat (split; [lia|]). split; [reflexivity|].
  apply (setClockSegment_digits_distinct 2 8 9 bootState);
    (lia || reflexivity).
Defined.

(** * Further properties of [setClockTime] *)

(** A tick touches only the buffer and the two trackers: the brightness
    variables, the on/off flag and the driver's brightness are as before,
    the buffer keeps its size, and the pixels from 210 on, which belong to no
    digit, keep their colour. *)
Theorem setClockTime_frame hour minute second st :
  wf st → 0 ≤ hour → 0 ≤ minute → 0 ≤ second →
  ∃ st' tr,
    setClockTime hour minute second st = Ok tt st' tr ∧
    brightness st' = brightness st ∧
    oldBrightness st' = oldBrightness st ∧
    masterState st' = masterState st ∧
    driverBrightness st' = driverBrightness st ∧
    length (leds st') = length (leds st) ∧
    ∀ i : nat, 210 ≤ Z.of_nat i → leds st' !! i = leds st !! i.
Proof.
  intros Hwf Hh Hm Hs.
  destruct (setClockTime_cases hour minute second st Hwf Hh Hm Hs)
    as [(Em & ->)|[(Em & Eh & ->)|(Em & Eh & ->)]];
    eexists _, _; (split; [reflexivity|]);
    cbn [leds brightness oldBrightness masterState driverBrightness
         set_leds set_oldMinute set_oldHour];
    do 4 (split; [reflexivity|]);
    (split;
     [ rewrite Hwf;
       repeat first [apply wf_drawHours | apply wf_drawMinutes
                    | apply wf_drawSeconds]; lia || exact Hwf
     | intros i Hi; lookup_tac Hwf; reflexivity ]).
Qed.

Lemma setClockTime_frame_witness :
  wf staleState ∧ 0 ≤ 12 ∧ 0 ≤ 34 ∧ 0 ≤ 56 ∧
  ∃ st' tr,
    setClockTime 12 34 56 staleState = Ok tt st' tr ∧
    brightness st' = brightness staleState ∧
    oldBrightness st' = oldBrightness staleState ∧
    masterState st' = masterState staleState ∧
    driverBrightness st' = driverBrightness staleState ∧
    length (leds st') = length (leds staleState) ∧
    ∀ i : nat, 210 ≤ Z.of_nat i → leds st' !! i = leds staleState !! i.
Proof.
  split; [reflexivity|]. repeat (split; [lia|]).
  apply (setClockTime_frame 12 34 56 staleState); (lia || reflexivity).
Defined.

(** A negative [second] that is not a multiple of 10 makes [second % 10]
    negative: whatever the trackers hold, the tick then indexes [numberMap]
    at a negative row before it has written any pixel. *)
Theorem setClockTime_negative_second hour minute second st :
  second < 0 → Z.rem second 10 ≠ 0 →
  setClockTime hour minute second st
  = Undefined (NumberMapOob (Z.rem second 10) 0) st [].
Proof.
  intros Hneg Hrem.
  assert (¬ 0 ≤ unitsDigit second ≤ 9) as Hd.
  { unfold unitsDigit.
    pose proof (Z.rem_nonpos second 10 ltac:(lia) ltac:(lia)). lia. }
  pose proof (setClockSegment_undefined 0 (unitsDigit second) st ltac:(lia) Hd)
    as E.
  unfold setClockTime.
  rewrite (bind_Ok _ _ st _ st [] eq_refl). cbv beta.
  destruct (oldMinute st =? minute).
  - now rewrite (bind_Undefined _ _ _ _ _ _ E).
  - rewrite (bind_Ok _ _ st _ st [] eq_refl). cbv beta.
    destruct (oldHour st =? hour);
      now rewrite (bind_Undefined _ _ _ _ _ _ E).
Qed.

Lemma setClockTime_negative_second_witness :
  -1 < 0 ∧ Z.rem (-1) 10 ≠ 0 ∧
  setClockTime 12 0 (-1) bootState
  = Undefined (NumberMapOob (Z.rem (-1) 10) 0) bootState [].
Proof.
  split; [lia|]. split; [discriminate|].
  apply (setClockTime_negative_second 12 0 (-1) bootState);
    [lia|discriminate].
Defined.

(** ** What the display shows *)

Lemma showsDigit_render_same p d l :
  0 ≤ p ≤ 5 → length l = Z.to_nat NUM_LEDS → showsDigit (render p d l) p d.
Proof.
  intros Hp Hl off Ho. rewrite digitStart_35 by lia.
  now apply render_lookup_in.
Qed.

Lemma showsDigit_render_other p q d d' l :
  0 ≤ p ≤ 5 → 0 ≤ q ≤ 5 → p ≠ q → length l = Z.to_nat NUM_LEDS →
  showsDigit l p d → showsDigit (render q d' l) p d.
Proof.
  intros Hp Hq Hne Hl Hshow off Ho.
  rewrite <- (Hshow off Ho). rewrite digitStart_35 by lia.
  apply render_lookup_out; (assumption || lia).
Qed.

Ltac shown_tac Hl :=
  unfold drawHours, drawMinutes, drawSeconds;
  repeat first
    [ apply showsDigit_render_same;
      [ lia | repeat apply length_render; lia || exact Hl ]
    | apply showsDigit_render_other;
      [ lia | lia | lia | repeat apply length_render; lia || exact Hl | ] ].

(** One tick, read from the display. *)
Lemma tick_display hour minute second st :
  wf st → 0 ≤ hour ≤ 255 → 0 ≤ minute ≤ 255 → 0 ≤ second < 2 ^ 31 →
  ∃ st' tr,
    setClockTime hour minute second st = Ok tt st' tr ∧
    wf st' ∧
    showsDigit (leds st') 0 (second mod 10) ∧
    showsDigit (leds st') 1 ((second / 10) mod 10) ∧
    oldMinute st' = minute ∧
    oldHour st' = (if decide (oldMinute st = minute) then oldHour st else hour) ∧
    (trackersShown st ∨ (oldMinute st ≠ minute ∧ oldHour st ≠ hour) →
     trackersShown st').
Proof.
  intros Hwf Hh Hm Hs.
  destruct (digits_split hour ltac:(lia)) as [Hhu Hht].
  destruct (digits_split minute ltac:(lia)) as [Hmu Hmt].
  destruct (digits_split second ltac:(lia)) as [Hsu Hst].
  destruct (setClockTime_cases hour minute second st Hwf ltac:(lia) ltac:(lia)
              ltac:(lia)) as [(Em & ->)|[(Em & Eh & ->)|(Em & Eh & ->)]];
    rewrite ?(to_uint8_small minute), ?(to_uint8_small hour) by assumption;
    eexists _, _; (split; [reflexivity|]);
    cbn [leds oldMinute oldHour set_leds set_oldMinute set_oldHour];
    (split; [unfold wf; cbn [leds];
             repeat first [apply wf_drawHours | apply wf_drawMinutes
                          | apply wf_drawSeconds]; lia || exact Hwf|]);
    rewrite <- Hsu, <- Hst;
    (split; [shown_tac Hwf|]); (split; [shown_tac Hwf|]);
    repeat first [rewrite decide_True by assumption
                 | rewrite decide_False by assumption];
    (split; [assumption || reflexivity|]);
    (split; [assumption || reflexivity|]);
    unfold trackersShown;
    cbn [leds oldMinute oldHour set_leds set_oldMinute set_oldHour];
    rewrite <- ?Hmu, <- ?Hmt, <- ?Hhu, <- ?Hht;
    intros [(H2 & H3 & H4 & H5)|[Hne1 Hne2]]; try congruence;
    repeat split; shown_tac Hwf; assumption.
Qed.

(** The trackers never disagree with the display: if the minute and hour
    positions show the values of [oldMinute] and [oldHour] before a tick,
    they show the (possibly updated) tracker values after it, whatever time
    is passed (hour and minute within [uint8_t]). *)
Theorem setClockTime_keeps_trackersShown hour minute second st :
  wf st → trackersShown st →
  0 ≤ hour ≤ 255 → 0 ≤ minute ≤ 255 → 0 ≤ second < 2 ^ 31 →
  ∃ st' tr,
    setClockTime hour minute second st = Ok tt st' tr ∧
    wf st' ∧ trackersShown st'.
Proof.
  intros Hwf Hshown Hh Hm Hs.
  destruct (tick_display hour minute second st Hwf Hh Hm Hs)
    as (st' & tr & E & Hwf' & _ & _ & _ & _ & Hkeep).
  exists st', tr. repeat split; try assumption.
  all: now apply Hkeep; left.
Qed.

Lemma timeShown_intro l hour minute second :
  showsDigit l 0 (second mod 10) →
  showsDigit l 1 ((second / 10) mod 10) →
  showsDigit l 2 (minute mod 10) →
  showsDigit l 3 ((minute / 10) mod 10) →
  showsDigit l 4 (hour mod 10) →
  showsDigit l 5 ((hour / 10) mod 10) →
  timeShown l hour minute second.
Proof.
  intros H0 H1 H2 H3 H4 H5 p Hp.
  assert (p = 0 ∨ p = 1 ∨ p = 2 ∨ p = 3 ∨ p = 4 ∨ p = 5) as Hp' by lia.
  destruct Hp' as [->|[->|[->|[->|[->| ->]]]]]; assumption.
Qed.

(** One tick, when the display agrees with the trackers or is about to be
    redrawn in full, and the hour is not asked to change under an unchanged
    minute. *)
Lemma tick_shows_time hour minute second st :
  wf st →
  trackersShown st ∨ (oldMinute st ≠ minute ∧ oldHour st ≠ hour) →
  (oldMinute st = minute → oldHour st = hour) →
  0 ≤ hour ≤ 23 → 0 ≤ minute ≤ 59 → 0 ≤ second ≤ 59 →
  ∃ st' tr,
    setClockTime hour minute second st = Ok tt st' tr ∧
    wf st' ∧ timeShown (leds st') hour minute second ∧
    oldHour st' = hour ∧ oldMinute st' = minute.
Proof.
  intros Hwf Hshown Hsync Hh Hm Hs.
  destruct (tick_display hour minute second st Hwf ltac:(lia) ltac:(lia)
              ltac:(lia))
    as (st' & tr & E & Hwf' & H0 & H1 & Hom & Hoh & Hkeep).
  assert (oldHour st' = hour) as Hoh'.
  { rewrite Hoh. destruct (decide (oldMinute st = minute)); auto. }
  destruct (Hkeep Hshown) as (H2 & H3 & H4 & H5).
  rewrite Hom in H2, H3. rewrite Hoh' in H4, H5.
  exists st', tr. repeat (split; [assumption|]).
  split; [now apply timeShown_intro|]. now split.
Qed.

(** When the display agrees with the trackers and the hour differs from
    [oldHour] only if the minute differs from [oldMinute], a tick leaves all
    six positions showing the time passed to it, and the trackers holding
    its hour and minute. *)
Theorem setClockTime_shows_time hour minute second st :
  wf st → trackersShown st →
  (oldMinute st = minute → oldHour st = hour) →
  0 ≤ hour ≤ 23 → 0 ≤ minute ≤ 59 → 0 ≤ second ≤ 59 →
  ∃ st' tr,
    setClockTime hour minute second st = Ok tt st' tr ∧
    timeShown (leds st') hour minute second ∧
    oldHour st' = hour ∧ oldMinute st' = minute.
Proof.
  intros Hwf Hshown Hsync Hh Hm Hs.
  destruct (tick_shows_time hour minute second st Hwf (or_introl Hshown)
              Hsync Hh Hm Hs) as (st' & tr & E & _ & Hrest).
  now exists st', tr.
Qed.

Lemma last_default {A} (l : list A) (x d d' : A) :
  List.last (x :: l) d = List.last (x :: l) d'.
Proof.
  revert x. induction l as [|y l IH]; intros x; [reflexivity|].
  change (List.last (y :: l) d = List.last (y :: l) d'). apply IH.
Qed.

(** Ticks along a steady run of times keep the display on the latest time. *)
Lemma ticks_steady ts : ∀ st hour minute second,
  wf st → timeShown (leds st) hour minute second →
  oldHour st = hour → oldMinute st = minute →
  steady hour minute ts →
  ∃ st' tr,
    ticks ts st = Ok tt st' tr ∧
    let '(hour', minute', second') := List.last ts (hour, minute, second) in
    timeShown (leds st') hour' minute' second'
    ∧ oldHour st' = hour' ∧ oldMinute st' = minute'.
Proof.
  induction ts as [|[[h m] s] ts IH]; intros st hour minute second
    Hwf Hshown Hoh Hom Hsteady.
  - exists st, []. split; [reflexivity|]. cbn. auto.
  - destruct Hsteady as (Hsync & (Hh & Hm & Hs) & Hsteady).
    assert (trackersShown st) as Htr.
    { unfold trackersShown. rewrite Hoh, Hom.
      repeat split; [apply (Hshown 2)|apply (Hshown 3)|apply (Hshown 4)
                    |apply (Hshown 5)]; lia. }
    destruct (tick_shows_time h m s st Hwf (or_introl Htr)
                ltac:(rewrite Hoh, Hom; exact Hsync) Hh Hm Hs)
      as (st1 & tr1 & E1 & Hwf1 & Hshown1 & Hoh1 & Hom1).
    destruct (IH st1 h m s Hwf1 Hshown1 Hoh1 Hom1 Hsteady)
      as (st' & tr' & E' & Hlast).
    exists st', (tr1 ++ tr'). split.
    + cbn [ticks]. rewrite (bind_Ok _ _ _ _ _ _ E1). now rewrite E'.
    + destruct ts as [|t ts']; [exact Hlast|].
      change (List.last ((h, m, s) :: t :: ts') (hour, minute, second))
        with (List.last (t :: ts') (hour, minute, second)).
      now rewrite (last_default ts' t _ (h, m, s)).
Qed.

Lemma tickedState_shown : wf tickedState ∧ trackersShown tickedState.
Proof.
  destruct (tick_display 10 15 0 bootState) as
    (st & tr & E & Hwf & _ & _ & _ & _ & Hkeep);
    [reflexivity|lia|lia|lia|].
  unfold tickedState. rewrite E. split; [assumption|].
  apply Hkeep. right. split; discriminate.
Qed.

Lemma tickedState_trackers :
  oldHour tickedState = 10 ∧ oldMinute tickedState = 15.
Proof. split; reflexivity. Qed.

Lemma setClockTime_keeps_trackersShown_witness :
  wf tickedState ∧ trackersShown tickedState ∧
  0 ≤ 11 ≤ 255 ∧ 0 ≤ 15 ≤ 255 ∧ 0 ≤ 7 < 2 ^ 31 ∧
  ∃ st' tr,
    setClockTime 11 15 7 tickedState = Ok tt st' tr ∧
    wf st' ∧ trackersShown st'.
Proof.
  split; [apply tickedState_shown|]. split; [apply tickedState_shown|].
  repeat (split; [lia|]).
  apply (setClockTime_keeps_trackersShown 11 15 7 tickedState);
    (lia || apply tickedState_shown).
Defined.

Lemma setClockTime_shows_time_witness :
  wf tickedState ∧ trackersShown tickedState ∧
  (oldMinute tickedState = 16 → oldHour tickedState = 10) ∧
  0 ≤ 10 ≤ 23 ∧ 0 ≤ 16 ≤ 59 ∧ 0 ≤ 0 ≤ 59 ∧
  ∃ st' tr,
    setClockTime 10 16 0 tickedState = Ok tt st' tr ∧
    timeShown (leds st') 10 16 0 ∧
    oldHour st' = 10 ∧ oldMinute st' = 16.
Proof.
  split; [apply tickedState_shown|]. split; [apply tickedState_shown|].
  split; [reflexivity|]. repeat (split; [lia|]).
  apply (setClockTime_shows_time 10 16 0 tickedState);
    (lia || apply tickedState_shown || reflexivity).
Defined.

(** From power-up on: after the start-up test, along any run of times in
    which the hour never changes while the minute stays the same, every tick
    returns, and after the last one all six positions show the last time of
    the run and the trackers hold its hour and minute. *)
Theorem pixelTest_ticks_show_time hour minute second ts st :
  wf st → validTime (hour, minute, second) → steady hour minute ts →
  ∃ st' tr,
    (pixelTest ;; ticks ((hour, minute, second) :: ts)) st = Ok tt st' tr ∧
    let '(hour', minute', second') := List.last ts (hour, minute, second) in
    timeShown (leds st') hour' minute' second'
    ∧ oldHour st' = hour' ∧ oldMinute st' = minute'.
Proof.
  intros Hwf (Hh & Hm & Hs) Hsteady.
  destruct (pixelTest_effect st Hwf)
    as (st0 & tr0 & E0 & Hwf0 & Hoh0 & Hom0 & _).
  destruct (tick_shows_time hour minute second st0 Hwf0) as
    (st1 & tr1 & E1 & Hwf1 & Hshown1 & Hoh1 & Hom1);
    [right; lia|lia|assumption..|].
  destruct (ticks_steady ts st1 hour minute second Hwf1 Hshown1 Hoh1 Hom1
              Hsteady) as (st' & tr' & E' & Hlast).
  exists st', (tr0 ++ tr1 ++ tr'). split; [|exact Hlast].
  rewrite (bind_Ok _ _ _ _ _ _ E0). cbn [ticks].
  rewrite (bind_Ok _ _ _ _ _ _ E1). now rewrite E'.
Qed.

Lemma pixelTest_ticks_show_time_witness :
  wf bootState ∧ validTime (10, 59, 58) ∧
  steady 10 59 [(10, 59, 59); (11, 0, 0)] ∧
  ∃ st' tr,
    (pixelTest ;; ticks [(10, 59, 58); (10, 59, 59); (11, 0, 0)]) bootState
    = Ok tt st' tr ∧
    let '(hour', minute', second') :=
      List.last [(10, 59, 59); (11, 0, 0)] (10, 59, 58) in
    timeShown (leds st') hour' minute' second'
    ∧ oldHour st' = hour' ∧ oldMinute st' = minute'.
Proof.
  assert (validTime (10, 59, 58)) as Hv by (cbn; lia).
  assert (steady 10 59 [(10, 59, 59); (11, 0, 0)]) as Hs
    by (cbn; repeat split; lia).
  split; [reflexivity|]. split; [exact Hv|]. split; [exact Hs|].
  apply (pixelTest_ticks_show_time 10 59 58 [(10, 59, 59); (11, 0, 0)]
           bootState); [reflexivity|exact Hv|exact Hs].
Defined.

(** * Properties of [colorFill] *)

Lemma shows_fillEvents n : ∀ i c speed, shows (fillEvents n i c speed) = n.
Proof.
  induction n as [|n IH]; intros i c speed; [reflexivity|].
  cbn [fillEvents].
  change (shows (EvPixel i c :: EvShow :: EvDelay speed
                 :: fillEvents n (i + 1) c speed))
    with (S (shows (fillEvents n (i + 1) c speed))).
  now rewrite IH.
Qed.

Lemma fillLoop_spec n : ∀ c speed i st,
  0 ≤ i → i + Z.of_nat n ≤ NUM_LEDS → wf st →
  fillLoop n c speed i st
  = Ok tt
       (set_leds (take (Z.to_nat i) (leds st) ++ replicate n (cellOf c)
                  ++ drop (Z.to_nat i + n) (leds st)) st)
       (fillEvents n i (cellOf c) speed).
Proof.
  induction n as [|n IH]; intros c speed i st Hi Hn Hwf.
  - cbn. unfold ret.
    rewrite Nat.add_0_r, take_drop. now rewrite set_leds_id.
  - cbn [fillLoop].
    replace (if CRGB_eqb c White
             then writeLed i (mkCRGBW 0 0 0 255);; show
             else writeLed i (CRGBW_of_CRGB c);; show)
      with (writeLed i (cellOf c) ;; show)
      by (unfold cellOf; now destruct (CRGB_eqb c White)).
    rewrite (bind_Ok _ _ _ _ _ _ (write_show i _ st ltac:(lia))).
    match goal with
    | |- context [bind (delay ?ms) ?k ?s] =>
        rewrite (bind_Ok _ k s tt s [EvDelay ms] eq_refl)
    end.
    assert (Z.to_nat i < length (leds st))%nat as Hil.
    { unfold wf in Hwf. rewrite Hwf. lia. }
    rewrite IH by (lia || (unfold wf in *; cbn [leds set_leds];
                          now rewrite length_insert)).
    cbn [leds set_leds replicate fillEvents app]. f_equal.
    replace (Z.to_nat (i + 1)) with (S (Z.to_nat i)) by lia.
    now rewrite window_step by assumption.
Qed.

(** [colorFill] overwrites the whole buffer, whatever it held: each of the
    214 pixels gets the cell of the colour (white goes to the white channel
    alone, any other colour keeps its three channels with the white channel
    off); the buffer is pushed after every pixel, 214 times, each push
    followed by a pause of [speed]. *)
Theorem colorFill_fills c speed st :
  wf st →
  colorFill c speed st
  = Ok tt (set_leds (replicate (Z.to_nat NUM_LEDS) (cellOf c)) st)
       (fillEvents (Z.to_nat NUM_LEDS) 0 (cellOf c) speed)
  ∧ shows (fillEvents (Z.to_nat NUM_LEDS) 0 (cellOf c) speed) = 214%nat
  ∧ cellOf c = (if CRGB_eqb c White then mkCRGBW 0 0 0 255
                else mkCRGBW (rgb_r c) (rgb_g c) (rgb_b c) 0).
Proof.
  intros Hwf. split; [|split; [apply shows_fillEvents|reflexivity]].
  unfold colorFill.
  rewrite fillLoop_spec by (assumption || (unfold NUM_LEDS; lia)).
  do 2 f_equal.
  rewrite drop_ge by (unfold wf in Hwf; rewrite Hwf; lia).
  now rewrite app_nil_r.
Qed.

Lemma colorFill_fills_witness :
  wf tickedState ∧
  (colorFill (mkCRGB 255 0 0) 1 tickedState
   = Ok tt (set_leds (replicate (Z.to_nat NUM_LEDS) (cellOf (mkCRGB 255 0 0)))
              tickedState)
        (fillEvents (Z.to_nat NUM_LEDS) 0 (cellOf (mkCRGB 255 0 0)) 1)
   ∧ shows (fillEvents (Z.to_nat NUM_LEDS) 0 (cellOf (mkCRGB 255 0 0)) 1)
     = 214%nat
   ∧ cellOf (mkCRGB 255 0 0)
     = (if CRGB_eqb (mkCRGB 255 0 0) White then mkCRGBW 0 0 0 255
        else mkCRGBW (rgb_r (mkCRGB 255 0 0)) (rgb_g (mkCRGB 255 0 0))
               (rgb_b (mkCRGB 255 0 0)) 0)).
Proof.
  split; [apply tickedState_shown|].
  apply (colorFill_fills (mkCRGB 255 0 0) 1 tickedState).
  apply tickedState_shown.
Defined.

(** * The copy without trackers *)

(** In the copy of the sketch without trackers every tick draws the seconds
    and minute pairs, so positions 0 to 3 show second and minute whatever was
    displayed before; it pushes the buffer 140 times, and it never writes the
    hour positions: the pixels from 140 on keep their colour whatever hour is
    passed. *)
Theorem early_setClockTime_four_digits hour minute second st :
  wf st → 0 ≤ minute < 2 ^ 31 → 0 ≤ second < 2 ^ 31 →
  ∃ st' tr,
    Early.setClockTime hour minute second st = Ok tt st' tr ∧
    showsDigit (leds st') 0 (second mod 10) ∧
    showsDigit (leds st') 1 ((second / 10) mod 10) ∧
    showsDigit (leds st') 2 (minute mod 10) ∧
    showsDigit (leds st') 3 ((minute / 10) mod 10) ∧
    redrawn 4 tr = false ∧ redrawn 5 tr = false ∧
    shows tr = 140%nat ∧
    ∀ i : nat, 140 ≤ Z.of_nat i → leds st' !! i = leds st !! i.
Proof.
  intros Hwf Hm Hs.
  destruct (digits_split minute Hm) as [Hmu Hmt].
  destruct (digits_split second Hs) as [Hsu Hst].
  unfold Early.setClockTime. do 4 seg_step.
  eexists _, _. split; [reflexivity|].
  cbn [leds set_leds]. rewrite <- Hsu, <- Hst, <- Hmu, <- Hmt.
  do 4 (split; [shown_tac Hwf|]).
  rewrite !redrawn_app, !redrawn_segmentEvents by lia.
  do 2 (split; [reflexivity|]).
  rewrite !shows_app, !shows_segmentEvents. split; [reflexivity|].
  intros i Hi. lookup_tac Hwf. reflexivity.
Qed.

Lemma early_setClockTime_four_digits_witness :
  wf bootState ∧ 0 ≤ 59 < 2 ^ 31 ∧ 0 ≤ 9 < 2 ^ 31 ∧
  ∃ st' tr,
    Early.setClockTime 23 59 9 bootState = Ok tt st' tr ∧
    showsDigit (leds st') 0 (9 mod 10) ∧
    showsDigit (leds st') 1 ((9 / 10) mod 10) ∧
    showsDigit (leds st') 2 (59 mod 10) ∧
    showsDigit (leds st') 3 ((59 / 10) mod 10) ∧
    redrawn 4 tr = false ∧ redrawn 5 tr = false ∧
    shows tr = 140%nat ∧
    ∀ i : nat, 140 ≤ Z.of_nat i → leds st' !! i = leds bootState !! i.
Proof.
  split; [reflexivity|]. repeat (split; [lia|]).
  apply (early_setClockTime_four_digits 23 59 9 bootState);
    (lia || reflexivity).
Defined.

(** * Further properties of [callback] *)

(** A message on any other topic than the two the sketch handles changes
    nothing and reaches no LED. *)
Theorem callback_other_topic toInt topic payload length stray st :
  topic ≠ "LEDClock/Brightness"%string → topic ≠ "LEDClock/State"%string →
  callback toInt topic payload length stray st = Ok tt st [].
Proof.
  intros HB HS. unfold callback. cbv zeta.
  rewrite (proj2 (String.eqb_neq _ _) HB), (proj2 (String.eqb_neq _ _) HS).
  reflexivity.
Qed.

Lemma callback_other_topic_witness :
  "LEDClock/Colour"%string ≠ "LEDClock/Brightness"%string ∧
  "LEDClock/Colour"%string ≠ "LEDClock/State"%string ∧
  callback decimalToInt "LEDClock/Colour" "7" 1 "xyz" bootState
  = Ok tt bootState [].
Proof.
  split; [discriminate|]. split; [discriminate|].
  apply (callback_other_topic decimalToInt "LEDClock/Colour" "7" 1 "xyz"
           bootState); discriminate.
Defined.

(** Two State messages in a row that are not read as "true" lose the
    configured brightness: the second one saves the forced 0, so a following
    message that is read as "true" switches the clock on at brightness 0.
    What a message is read as is the String built from its payload and the
    bytes behind the buffer. *)
Theorem callback_off_twice toInt off1 length1 stray1 off2 length2 stray2
    on length3 stray3 st :
  bufferString off1 length1 stray1 ≠ "true"%string →
  bufferString off2 length2 stray2 ≠ "true"%string →
  bufferString on length3 stray3 = "true"%string →
  ∃ st1 tr1 st2 tr2 st3 tr3,
    callback toInt "LEDClock/State" off1 length1 stray1 st = Ok tt st1 tr1 ∧
    callback toInt "LEDClock/State" off2 length2 stray2 st1 = Ok tt st2 tr2 ∧
    callback toInt "LEDClock/State" on length3 stray3 st2 = Ok tt st3 tr3 ∧
    masterState st3 = true ∧
    brightness st3 = 0 ∧ driverBrightness st3 = 0 ∧ oldBrightness st3 = 0.
Proof.
  intros H1 H2 H3. eexists _, _, _, _, _, _.
  split; [now apply callback_State_off|].
  split; [now apply callback_State_off|].
  split; [now apply callback_State_on|]. repeat split.
Qed.

Lemma callback_off_twice_witness :
  bufferString "false" 5 "q" ≠ "true"%string ∧
  bufferString "true" 4 "x" ≠ "true"%string ∧
  bufferString "true" 4 "" = "true"%string ∧
  ∃ st1 tr1 st2 tr2 st3 tr3,
    callback decimalToInt "LEDClock/State" "false" 5 "q" bootState
    = Ok tt st1 tr1 ∧
    callback decimalToInt "LEDClock/State" "true" 4 "x" st1 = Ok tt st2 tr2 ∧
    callback decimalToInt "LEDClock/State" "true" 4 "" st2 = Ok tt st3 tr3 ∧
    masterState st3 = true ∧
    brightness st3 = 0 ∧ driverBrightness st3 = 0 ∧ oldBrightness st3 = 0.
Proof.
  split; [discriminate|]. split; [discriminate|]. split; [reflexivity|].
  apply (callback_off_twice decimalToInt "false" 5 "q" "true" 4 "x" "true" 4 ""
           bootState); [discriminate|discriminate|reflexivity].
Defined.

(** What [callback] returns, by topic and by the String it builds. *)
Lemma callback_cases toInt topic payload length stray st :
  ∃ st' tr,
    callback toInt topic payload length stray st = Ok tt st' tr ∧
    leds st' = leds st ∧ oldHour st' = oldHour st ∧
    oldMinute st' = oldMinute st ∧
    ((topic = "LEDClock/Brightness"%string ∧
      brightness st' = to_uint8 (toInt (bufferString payload length stray)) ∧
      oldBrightness st' = to_uint8 (toInt (bufferString payload length stray)) ∧
      driverBrightness st' = to_uint8 (toInt (bufferString payload length stray)) ∧
      masterState st' = masterState st)
     ∨ (topic = "LEDClock/State"%string ∧
        bufferString payload length stray = "true"%string ∧
        brightness st' = oldBrightness st ∧
        oldBrightness st' = oldBrightness st ∧
        driverBrightness st' = oldBrightness st ∧
        masterState st' = true)
     ∨ (topic = "LEDClock/State"%string ∧
        bufferString payload length stray ≠ "true"%string ∧
        brightness st' = 0 ∧ oldBrightness st' = brightness st ∧
        driverBrightness st' = 0 ∧ masterState st' = false)
     ∨ (topic ≠ "LEDClock/Brightness"%string ∧
        topic ≠ "LEDClock/State"%string ∧ st' = st)).
Proof.
  destruct (String.eqb_spec topic "LEDClock/Brightness") as [->|HB];
    [|destruct (String.eqb_spec topic "LEDClock/State") as [->|HS];
      [destruct (String.eqb_spec (bufferString payload length stray) "true")
         as [HM|HM]|]].
  - rewrite callback_Brightness. eexists _, _. split; [reflexivity|].
    do 3 (split; [reflexivity|]). left. repeat split.
  - rewrite callback_State_on by assumption.
    eexists _, _. split; [reflexivity|].
    do 3 (split; [reflexivity|]). right; left. repeat split.
    assumption.
  - rewrite callback_State_off by assumption.
    eexists _, _. split; [reflexivity|].
    do 3 (split; [reflexivity|]). right; right; left. repeat split.
    assumption.
  - unfold callback. cbv zeta.
    rewrite (proj2 (String.eqb_neq _ _) HB), (proj2 (String.eqb_neq _ _) HS).
    eexists _, _. split; [reflexivity|].
    do 3 (split; [reflexivity|]). right; right; right. repeat split;
      assumption.
Qed.

(** [callback] never touches the pixel buffer or the time trackers, whatever
    the topic, the payload and the bytes behind the buffer: a remote-control
    message cannot change which digits are lit or which digits the next tick
    redraws. *)
Theorem callback_frame toInt topic payload length stray st :
  ∃ st' tr,
    callback toInt topic payload length stray st = Ok tt st' tr ∧
    leds st' = leds st ∧ oldHour st' = oldHour st ∧
    oldMinute st' = oldMinute st ∧
    filter isPixelWrite tr = [].
Proof.
  destruct (String.eqb_spec topic "LEDClock/Brightness") as [->|HB];
    [|destruct (String.eqb_spec topic "LEDClock/State") as [->|HS];
      [destruct (String.eqb_spec (bufferString payload length stray) "true")
         as [HM|HM]|]].
  - rewrite callback_Brightness. now eexists _, _.
  - rewrite callback_State_on by assumption. now eexists _, _.
  - rewrite callback_State_off by assumption. now eexists _, _.
  - unfold callback. cbv zeta.
    rewrite (proj2 (String.eqb_neq _ _) HB), (proj2 (String.eqb_neq _ _) HS).
    now eexists _, _.
Qed.

(** After any message on one of the two handled topics the brightness
    variable equals the driver's brightness and, if the clock is on, the
    saved brightness; a message on another topic keeps this. *)
Theorem callback_brightnessSynced toInt topic payload length stray st :
  topic = "LEDClock/Brightness"%string ∨ topic = "LEDClock/State"%string
  ∨ brightnessSynced st →
  ∃ st' tr,
    callback toInt topic payload length stray st = Ok tt st' tr
    ∧ brightnessSynced st'.
Proof.
  intros H.
  destruct (callback_cases toInt topic payload length stray st)
    as (st' & tr & E & _ & _ & _ & Hc).
  exists st', tr. split; [assumption|]. unfold brightnessSynced.
  destruct Hc as [(_ & Hb & Ho & Hd & _)|[(_ & _ & Hb & Ho & Hd & _)
                |[(_ & _ & Hb & _ & Hd & Hm)|(HB & HS & ->)]]].
  - split; [congruence|intros _; congruence].
  - split; [congruence|intros _; congruence].
  - split; [congruence|]. rewrite Hm. discriminate.
  - destruct H as [?|[?|?]]; [contradiction|contradiction|assumption].
Qed.

Lemma callback_brightnessSynced_witness :
  ("LEDClock/State"%string = "LEDClock/Brightness"%string
   ∨ "LEDClock/State"%string = "LEDClock/State"%string
   ∨ brightnessSynced bootState) ∧
  ∃ st' tr,
    callback decimalToInt "LEDClock/State" "true" 4 "x" bootState
    = Ok tt st' tr
    ∧ brightnessSynced st'.
Proof.
  split; [right; left; reflexivity|].
  apply (callback_brightnessSynced decimalToInt "LEDClock/State" "true" 4 "x"
           bootState).
  right; left; reflexivity.
Defined.

(** A Brightness message does not look at the on/off flag: received while the
    clock is off it sets the driver's brightness to the new value, the number
    in the String it builds taken modulo 256, although [masterState] stays
    false; and a following message that is read as "true" keeps that
    value. *)
Theorem callback_brightness_while_off toInt payload length stray on lengthOn strayOn st :
  masterState st = false →
  bufferString on lengthOn strayOn = "true"%string →
  ∃ st1 tr1 st2 tr2,
    callback toInt "LEDClock/Brightness" payload length stray st = Ok tt st1 tr1 ∧
    masterState st1 = false ∧
    driverBrightness st1 = to_uint8 (toInt (bufferString payload length stray)) ∧
    0 ≤ driverBrightness st1 < 256 ∧
    callback toInt "LEDClock/State" on lengthOn strayOn st1 = Ok tt st2 tr2 ∧
    masterState st2 = true ∧
    brightness st2 = to_uint8 (toInt (bufferString payload length stray)) ∧
    driverBrightness st2 = to_uint8 (toInt (bufferString payload length stray)).
Proof.
  intros Hoff Hon. eexists _, _, _, _.
  split; [apply callback_Brightness|]. split; [exact Hoff|].
  split; [reflexivity|].
  split; [cbn [driverBrightness set_driverBrightness]; unfold to_uint8;
          apply Z.mod_pos_bound; lia|].
  split; [now apply callback_State_on|]. repeat split.
Qed.

Lemma callback_brightness_while_off_witness :
  masterState (set_masterState false bootState) = false ∧
  bufferString "true" 4 (String Ascii.zero "junk") = "true"%string ∧
  ∃ st1 tr1 st2 tr2,
    callback decimalToInt "LEDClock/Brightness" "30" 2 "0x"
      (set_masterState false bootState) = Ok tt st1 tr1 ∧
    masterState st1 = false ∧
    driverBrightness st1 = to_uint8 (decimalToInt (bufferString "30" 2 "0x")) ∧
    0 ≤ driverBrightness st1 < 256 ∧
    callback decimalToInt "LEDClock/State" "true" 4
      (String Ascii.zero "junk")
      st1 = Ok tt st2 tr2 ∧
    masterState st2 = true ∧
    brightness st2 = to_uint8 (decimalToInt (bufferString "30" 2 "0x")) ∧
    driverBrightness st2 = to_uint8 (decimalToInt (bufferString "30" 2 "0x")).
Proof.
  split; [reflexivity|]. split; [reflexivity|].
  apply (callback_brightness_while_off decimalToInt "30" 2 "0x" "true" 4
           (String Ascii.zero "junk") (set_masterState false bootState));
    reflexivity.
Defined.

(** The payload [30] with the bytes [0x] behind the buffer is read as 300,
    which a byte holds as 44. *)
Example brightness_300_wraps :
  bufferString "30" 2 "0x" = "300x"%string
  ∧ to_uint8 (decimalToInt (bufferString "30" 2 "0x")) = 44.
Proof. split; reflexivity. Qed.

(** * The byte variables *)

(** The variables declared [uint8_t] stay within a byte: neither a message
    (whatever number it carries) nor a tick (whatever non-negative time it
    is passed) takes [brightness], [oldBrightness], [oldHour], [oldMinute] or
    the driver's brightness out of 0..255. *)
Theorem uint8_ok_preserved toInt topic payload length stray
    hour minute second st :
  wf st → uint8_ok st → 0 ≤ hour → 0 ≤ minute → 0 ≤ second →
  (∃ st' tr,
     callback toInt topic payload length stray st = Ok tt st' tr ∧ uint8_ok st') ∧
  (∃ st' tr,
     setClockTime hour minute second st = Ok tt st' tr ∧ uint8_ok st').
Proof.
  intros Hwf (Hb & Hob & Hoh & Hom & Hd) Hh Hm Hs.
  pose proof (Z.mod_pos_bound (toInt (bufferString payload length stray)) 256
                ltac:(lia)) as Hv.
  pose proof (Z.mod_pos_bound hour 256 ltac:(lia)) as Hvh.
  pose proof (Z.mod_pos_bound minute 256 ltac:(lia)) as Hvm.
  split.
  - destruct (callback_cases toInt topic payload length stray st)
      as (st' & tr & E & _ & Eh & Em & Hc).
    exists st', tr. split; [assumption|]. unfold uint8_ok, to_uint8 in *.
    rewrite Eh, Em.
    destruct Hc as [(_ & -> & -> & -> & _)|[(_ & _ & -> & -> & -> & _)
                  |[(_ & _ & -> & -> & -> & _)|(_ & _ & ->)]]];
      repeat split; lia.
  - destruct (setClockTime_cases hour minute second st Hwf Hh Hm Hs)
      as [(Em & ->)|[(Em & Eh & ->)|(Em & Eh & ->)]];
      eexists _, _; (split; [reflexivity|]); unfold uint8_ok, to_uint8;
      cbn [leds brightness oldBrightness oldHour oldMinute driverBrightness
           set_leds set_oldMinute set_oldHour];
      repeat split; lia.
Qed.

Lemma uint8_ok_preserved_witness :
  wf bootState ∧ uint8_ok bootState ∧ 0 ≤ 23 ∧ 0 ≤ 59 ∧ 0 ≤ 59 ∧
  ((∃ st' tr,
      callback decimalToInt "LEDClock/Brightness" "300" 3 "" bootState
      = Ok tt st' tr ∧ uint8_ok st') ∧
   (∃ st' tr,
      setClockTime 23 59 59 bootState = Ok tt st' tr ∧ uint8_ok st')).
Proof.
  assert (uint8_ok bootState) as Hu by (unfold uint8_ok; cbn; lia).
  split; [reflexivity|]. split; [exact Hu|]. repeat (split; [lia|]).
  apply (uint8_ok_preserved decimalToInt "LEDClock/Brightness" "300" 3 ""
           23 59 59 bootState); (lia || reflexivity || exact Hu).
Defined.

(** * Properties of [delayWithMQTT] *)

Lemma waitLoop_Some clientLoop deadline readings : ∀ st rest st' tr,
  waitLoop clientLoop deadline readings st = Ok (Some rest) st' tr →
  ∃ polled now,
    readings = polled ++ now :: rest ∧
    Forall (λ x, x < deadline) polled ∧ deadline ≤ now.
Proof.
  induction readings as [|now rs IH]; intros st rest st' tr E.
  - discriminate E.
  - cbn [waitLoop] in E. destruct (Z.gtb_spec deadline now) as [Hgt|Hle].
    + unfold bind in E.
      destruct (clientLoop st) as [[] st1 tr1|]; [|discriminate E].
      destruct (waitLoop clientLoop deadline rs st1) as [o st2 tr2|] eqn:E2;
        [|discriminate E].
      injection E as -> -> _.
      destruct (IH _ _ _ _ E2) as (polled & now' & -> & Hp & Hn).
      exists (now :: polled), now'. repeat split; try assumption.
      constructor; [lia|assumption].
    + injection E as -> _ _. exists [], now. repeat split; [constructor|lia].
Qed.

(** Away from the wrap-around of [millis()], [delayWithMQTT] does not return
    early: when it returns, every reading of [millis()] it polled before was
    below [currentMillis + delay], and the reading that ended the wait is at
    least [currentMillis + delay]. *)
Theorem delayWithMQTT_waits clientLoop delay currentMillis readings
    st rest st' tr :
  0 ≤ delay → 0 ≤ currentMillis → currentMillis + delay < 2 ^ 32 →
  delayWithMQTT clientLoop delay (currentMillis :: readings) st
  = Ok (Some rest) st' tr →
  ∃ polled now,
    readings = polled ++ now :: rest ∧
    Forall (λ x, x < currentMillis + delay) polled ∧
    currentMillis + delay ≤ now.
Proof.
  intros Hd Hc Hsum E. unfold delayWithMQTT, to_unsigned in E.
  rewrite (Z.mod_small delay) in E by lia.
  rewrite (Z.mod_small (currentMillis + delay)) in E by lia.
  exact (waitLoop_Some _ _ _ _ _ _ _ E).
Qed.

Lemma delayWithMQTT_waits_witness :
  0 ≤ 100 ∧ 0 ≤ 1000 ∧ 1000 + 100 < 2 ^ 32 ∧
  delayWithMQTT (ret tt) 100 [1000; 1040; 1080; 1120; 1160] bootState
  = Ok (Some [1160]) bootState [] ∧
  ∃ polled now,
    [1040; 1080; 1120; 1160] = polled ++ now :: [1160] ∧
    Forall (λ x, x < 1000 + 100) polled ∧
    1000 + 100 ≤ now.
Proof.
  repeat (split; [lia|]). split; [reflexivity|].
  apply (delayWithMQTT_waits (ret tt) 100 1000 [1040; 1080; 1120; 1160]
           bootState [1160] bootState []); (lia || reflexivity).
Defined.

(** Within [delay] milliseconds of the wrap-around of [millis()] the sum
    [currentMillis + delay] wraps to a small number, and [delayWithMQTT]
    returns at the first test without waiting and without running
    [client.loop()]. *)
Theorem delayWithMQTT_wraps clientLoop delay currentMillis now rest st :
  0 ≤ delay < 2 ^ 31 → 0 ≤ currentMillis < 2 ^ 32 →
  2 ^ 32 ≤ currentMillis + delay →
  currentMillis ≤ now →
  delayWithMQTT clientLoop delay (currentMillis :: now :: rest) st
  = Ok (Some rest) st [].
Proof.
  intros Hd Hc Hwrap Hnow. unfold delayWithMQTT, to_unsigned.
  rewrite (Z.mod_small delay) by lia.
  replace ((currentMillis + delay) mod 2 ^ 32)
    with (currentMillis + delay - 2 ^ 32).
  - cbn [waitLoop].
    destruct (Z.gtb_spec (currentMillis + delay - 2 ^ 32) now); [lia|].
    reflexivity.
  - apply Z.mod_unique with (q := 1); [left|]; lia.
Qed.

Lemma delayWithMQTT_wraps_witness :
  0 ≤ 100 < 2 ^ 31 ∧ 0 ≤ 2 ^ 32 - 50 < 2 ^ 32 ∧
  2 ^ 32 ≤ 2 ^ 32 - 50 + 100 ∧ 2 ^ 32 - 50 ≤ 2 ^ 32 - 49 ∧
  delayWithMQTT (ret tt) 100 [2 ^ 32 - 50; 2 ^ 32 - 49; 2 ^ 32 - 48] bootState
  = Ok (Some [2 ^ 32 - 48]) bootState [].
Proof.
  repeat (split; [lia|]).
  apply (delayWithMQTT_wraps (ret tt) 100 (2 ^ 32 - 50) (2 ^ 32 - 49)
           [2 ^ 32 - 48] bootState); lia.
Defined.
